(** * Verification of the tool-calling core of excel_analysis

    Shallow embedding of the Python modules
      - src/tools/message_variable_processor.py  (binding store, previews,
        placeholder resolution, SQL result tables),
      - src/tools/tool_registry.py               (tool dispatch),
      - src/llm_client.py                        (the bounded tool-calling loop),
      - src/dialogue_service.py                  (parallel slide generation).

    Python [str] values are lists of Unicode code points ([pystr]); Python
    exceptions are the [Raise] branch of the [exc] result type. *)

From Stdlib Require Import ZArith NArith List String Ascii DecimalString DecimalN Lia.
From stdpp Require Import base gmap list.
Import ListNotations.
Set Warnings "-register-all".

Open Scope N_scope.

(* ------------------------------------------------------------------ *)
(** ** Python strings, exceptions and values *)

(** A Python [str]: a sequence of Unicode code points. *)
Abbreviation pystr := (list N).

(** Decoding of the UTF-8 bytes of a Rocq string literal. *)
Fixpoint utf8_dec (bs : list N) : pystr :=
  match bs with
  | [] => []
  | b :: r =>
      if b <? 128 then b :: utf8_dec r
      else match r with
           | [] => []
           | b1 :: r1 =>
               if b <? 224 then ((b - 192) * 64 + (b1 - 128)) :: utf8_dec r1
               else match r1 with
                    | [] => []
                    | b2 :: r2 =>
                        if b <? 240
                        then ((b - 224) * 4096 + (b1 - 128) * 64 + (b2 - 128)) :: utf8_dec r2
                        else match r2 with
                             | [] => []
                             | b3 :: r3 =>
                                 ((b - 240) * 262144 + (b1 - 128) * 4096
                                  + (b2 - 128) * 64 + (b3 - 128)) :: utf8_dec r3
                             end
                    end
           end
  end.

(** A Python string literal, written as a (UTF-8) Rocq string. *)
Definition u (s : String.string) : pystr :=
  utf8_dec (map N_of_ascii (list_ascii_of_string s)).

(** The same, where a backtick stands for a double quote (code point 34);
    used for the HTML templates of the source, which are full of quotes. *)
Definition q (s : String.string) : pystr :=
  map (fun c => if c =? 96 then 34 else c) (u s).

(** [str(n)] for a Python [int]. *)
Definition py_str_int (z : Z) : pystr :=
  let digits (n : N) := u (NilZero.string_of_uint (N.to_uint n)) in
  match z with
  | Z0 => u "0"
  | Zpos p => digits (Npos p)
  | Zneg p => u "-" ++ digits (Npos p)
  end.

(** ["sep".join(parts)] *)
Fixpoint py_join (sep : pystr) (parts : list pystr) : pystr :=
  match parts with
  | [] => []
  | [p] => p
  | p :: ps => p ++ sep ++ py_join sep ps
  end.

(** A raised Python exception: its class name and [str(e)]. *)
Record pyexc := PyExc { exc_type : pystr; exc_msg : pystr }.

Inductive exc (A : Type) : Type :=
| Ok (a : A)
| Raise (e : pyexc).
Arguments Ok {A} a.
Arguments Raise {A} e.

Definition exc_bind {A B} (m : exc A) (f : A -> exc B) : exc B :=
  match m with
  | Ok a => f a
  | Raise e => Raise e
  end.

Notation "'let*' x := m 'in' k" := (exc_bind m (fun x => k))
  (at level 200, x name, m at level 100, k at level 200).

(** The Python values that flow through the tool layer: the results of
    [json.loads] (floats apart) and, for the [Any]-typed entry points,
    other objects ([VOther t r]: an object of class [t] whose
    [str()]/[repr()] is [r], which [json.dumps] rejects). A dict is its list of items in insertion order. *)
Inductive value : Type :=
| VNone
| VBool (b : bool)
| VInt (z : Z)
| VStr (s : pystr)
| VList (l : list value)
| VDict (items : list (pystr * value))
| VOther (tname r : pystr).

(** Python truthiness. *)
Definition truthy (v : value) : bool :=
  match v with
  | VNone => false
  | VBool b => b
  | VInt z => negb (Z.eqb z 0)
  | VStr s => negb (Nat.eqb (length s) 0)
  | VList l => negb (Nat.eqb (length l) 0)
  | VDict d => negb (Nat.eqb (length d) 0)
  | VOther _ _ => true
  end.

Fixpoint assoc_get (k : pystr) (d : list (pystr * value)) : option value :=
  match d with
  | [] => None
  | (k', v) :: d' => if decide (k = k') then Some v else assoc_get k d'
  end.

(** [d.get(k, default)] on a dict. *)
Definition dict_get (d : list (pystr * value)) (k : pystr) (default : value) : value :=
  match assoc_get k d with Some v => v | None => default end.

(* ------------------------------------------------------------------ *)
(** ** [json.dumps(v, ensure_ascii=False)] *)

Definition hex_digit (n : N) : N := if n <? 10 then 48 + n else 87 + n.

(** The escaping of [json.encoder.py_encode_basestring]. *)
Definition json_escape_char (c : N) : pystr :=
  if c =? 34 then [92; 34]
  else if c =? 92 then [92; 92]
  else if c =? 10 then [92; 110]
  else if c =? 13 then [92; 114]
  else if c =? 9 then [92; 116]
  else if c =? 8 then [92; 98]
  else if c =? 12 then [92; 102]
  else if c <? 32 then [92; 117; 48; 48; hex_digit (c / 16); hex_digit (c mod 16)]
  else [c].

Definition json_str (s : pystr) : pystr := [34] ++ flat_map json_escape_char s ++ [34].

Definition not_serializable (tname : pystr) : pyexc :=
  PyExc (u "TypeError") (u "Object of type " ++ tname ++ u " is not JSON serializable").

Fixpoint json_dumps (v : value) : exc pystr :=
  match v with
  | VNone => Ok (u "null")
  | VBool true => Ok (u "true")
  | VBool false => Ok (u "false")
  | VInt z => Ok (py_str_int z)
  | VStr s => Ok (json_str s)
  | VList l =>
      let fix items (l : list value) : exc (list pystr) :=
        match l with
        | [] => Ok []
        | x :: xs => let* a := json_dumps x in let* r := items xs in Ok (a :: r)
        end in
      let* parts := items l in Ok (u "[" ++ py_join (u ", ") parts ++ u "]")
  | VDict d =>
      let fix items (d : list (pystr * value)) : exc (list pystr) :=
        match d with
        | [] => Ok []
        | (k, x) :: xs =>
            let* a := json_dumps x in let* r := items xs in Ok ((json_str k ++ u ": " ++ a) :: r)
        end in
      let* parts := items d in Ok (u "{" ++ py_join (u ", ") parts ++ u "}")
  | VOther t _ => Raise (not_serializable t)
  end.

(* ------------------------------------------------------------------ *)
(** ** [str()] and [repr()] of values (used by the f-strings of the tables) *)

(** [repr(s)] of a [str]: single quotes unless the text holds a single
    quote and no double quote; backslash, the quote, tab, newline and
    carriage return escaped; the other control characters of Latin-1
    written [\xNN]. (Non-printable characters above U+00FF are not escaped
    here.) *)
Definition py_repr_str (s : pystr) : pystr :=
  let quote := if existsb (N.eqb 39) s && negb (existsb (N.eqb 34) s) then 34 else 39 in
  let esc (c : N) : pystr :=
    if c =? quote then [92; c]
    else if c =? 92 then [92; 92]
    else if c =? 9 then [92; 116]
    else if c =? 10 then [92; 110]
    else if c =? 13 then [92; 114]
    else if (c <? 32) || ((127 <=? c) && (c <=? 160)) || (c =? 173)
    then [92; 120; hex_digit (c / 16); hex_digit (c mod 16)]
    else [c] in
  [quote] ++ flat_map esc s ++ [quote].

Fixpoint py_repr (v : value) : pystr :=
  match v with
  | VNone => u "None"
  | VBool true => u "True"
  | VBool false => u "False"
  | VInt z => py_str_int z
  | VStr s => py_repr_str s
  | VList l => u "[" ++ py_join (u ", ") (map py_repr l) ++ u "]"
  | VDict d =>
      u "{" ++ py_join (u ", ") (map (fun kv => py_repr_str kv.1 ++ u ": " ++ py_repr kv.2) d)
      ++ u "}"
  | VOther _ r => r
  end.

(** [str(v)]: the text itself for a [str], [repr] otherwise. *)
Definition py_str (v : value) : pystr :=
  match v with
  | VStr s => s
  | _ => py_repr v
  end.

(* ------------------------------------------------------------------ *)
(** ** [MessageVariableProcessor]: state *)

(** A binding key [(tool_name, var_name)]. *)
Abbreviation key := (pystr * pystr)%type.

(** The fields set by [__init__]. The capacity [max_store_items] is a
    count (a non-negative [int]). *)
Record processor := Processor {
  _store : gmap key value;
  _order : list key;
  max_store_items : nat;
  preview_max_items : nat;
  preview_max_chars : nat;
  _known_tools : gset pystr
}.

Definition new_processor (max_store_items preview_max_items preview_max_chars : nat)
  : processor :=
  Processor ∅ [] max_store_items preview_max_items preview_max_chars ∅.

(** [MessageVariableProcessor()] with its defaults 50, 50, 2000. *)
Definition default_processor : processor := new_processor 50 50 2000.

Definition set_store (p : processor) (st : gmap key value) (ord : list key) : processor :=
  Processor st ord (max_store_items p) (preview_max_items p) (preview_max_chars p)
    (_known_tools p).

(** [register_known_tool]: [if tool_name: self._known_tools.add(tool_name)]. *)
Definition register_known_tool (p : processor) (tool_name : pystr) : processor :=
  match tool_name with
  | [] => p
  | _ => Processor (_store p) (_order p) (max_store_items p) (preview_max_items p)
           (preview_max_chars p) ({[tool_name]} ∪ _known_tools p)
  end.

(** The [while] loop of [_evict_if_necessary]: while the order list is longer
    than the capacity, pop its first key and drop that key from the store
    ([self._store.pop(old_key, None)]). *)
Fixpoint evict_loop (cap : nat) (st : gmap key value) (ord : list key)
  : gmap key value * list key :=
  match ord with
  | [] => (st, [])
  | old_key :: rest =>
      if Nat.ltb cap (length ord) then evict_loop cap (delete old_key st) rest
      else (st, ord)
  end.

Definition _evict_if_necessary (p : processor) : processor :=
  let '(st, ord) := evict_loop (max_store_items p) (_store p) (_order p) in
  set_store p st ord.

(** The generated name [f"{tool_name}_{int(time.time()*1000)}_{uuid.uuid4().hex[:8]}"];
    the clock reading in milliseconds and the uuid hex text are inputs. *)
Definition generated_name (tool_name : pystr) (millis : Z) (uuid_hex : pystr) : pystr :=
  tool_name ++ u "_" ++ py_str_int millis ++ u "_" ++ firstn 8 uuid_hex.

(** [register_binding(tool_name, value, var_name=None)]: returns the new
    processor state and the variable name. *)
Definition register_binding (p : processor) (tool_name : pystr) (v : value)
    (var_name : option pystr) (millis : Z) (uuid_hex : pystr) : processor * pystr :=
  let var_name := match var_name with
                  | Some n => n
                  | None => generated_name tool_name millis uuid_hex
                  end in
  let k := (tool_name, var_name) in
  let p1 := set_store p (<[k := v]> (_store p)) (_order p ++ [k]) in
  (_evict_if_necessary p1, var_name).

(** [get_binding]: [self._store.get((tool_name, var_name))], i.e. [None]
    when the key is absent. *)
Definition get_binding (p : processor) (tool_name var_name : pystr) : value :=
  match _store p !! (tool_name, var_name) with
  | Some v => v
  | None => VNone
  end.

(* ------------------------------------------------------------------ *)
(** ** Previews and the lightweight payload *)

(** [_make_preview]: a [str] cut to [preview_max_chars] characters, a list
    to [preview_max_items] items, a dict to its first 20 items with each
    list value cut to [min(len(v), preview_max_items)] items and each [str]
    value cut to [preview_max_chars] characters; anything else unchanged.
    (No branch can raise, so the [except] returning [None] is unreachable.) *)
Definition _make_preview (p : processor) (v : value) : value :=
  match v with
  | VStr s => VStr (firstn (preview_max_chars p) s)
  | VList l => VList (firstn (preview_max_items p) l)
  | VDict d =>
      VDict (map (fun kv =>
                    (kv.1, match kv.2 with
                           | VList l => VList (firstn (Nat.min (length l) (preview_max_items p)) l)
                           | VStr s => VStr (firstn (preview_max_chars p) s)
                           | x => x
                           end))
                 (firstn 20 d))
  | _ => v
  end.

Definition type_name (v : value) : pystr :=
  match v with
  | VNone => u "NoneType"
  | VBool _ => u "bool"
  | VInt _ => u "int"
  | VStr _ => u "str"
  | VList _ => u "list"
  | VDict _ => u "dict"
  | VOther t _ => t
  end.

Definition vint_of_nat (n : nat) : value := VInt (Z.of_nat n).

Definition _size_hint (v : value) : value :=
  match v with
  | VList l => VDict [(u "type", VStr (u "list")); (u "items", vint_of_nat (length l))]
  | VDict d => VDict [(u "type", VStr (u "dict")); (u "keys", vint_of_nat (length d))]
  | VStr s => VDict [(u "type", VStr (u "string")); (u "chars", vint_of_nat (length s))]
  | _ => VDict [(u "type", VStr (type_name v))]
  end.

Definition build_lightweight_tool_payload (p : processor) (tool_name var_name : pystr)
    (original_value : value) (include_preview : bool) : exc pystr :=
  let usage :=
    u "在最终回答中使用 {" ++ [34] ++ tool_name ++ [34; 58; 34] ++ var_name ++ [34]
    ++ u "} 引用完整数据；如需进一步计算，请描述需要的聚合/筛选，不要展开原始数据。" in
  let binding :=
    [(u "tool", VStr tool_name); (u "name", VStr var_name); (u "usage", VStr usage)]
    ++ (if include_preview then [(u "preview", _make_preview p original_value)] else [])
    ++ [(u "size_hint", _size_hint original_value)] in
  json_dumps (VDict [(u "variable_binding", VDict binding)]).

(* ------------------------------------------------------------------ *)
(** ** Python operations on values used by the table formatter *)

Definition type_error (msg : pystr) : pyexc := PyExc (u "TypeError") msg.

(** [for x in v] *)
Definition py_iter (v : value) : exc (list value) :=
  match v with
  | VList l => Ok l
  | VStr s => Ok (map (fun c => VStr [c]) s)
  | VDict d => Ok (map (fun kv => VStr kv.1) d)
  | _ => Raise (type_error (u "'" ++ type_name v ++ u "' object is not iterable"))
  end.

Fixpoint is_prefix (p s : pystr) : bool :=
  match p, s with
  | [], _ => true
  | a :: p', b :: s' => (a =? b) && is_prefix p' s'
  | _ :: _, [] => false
  end.

(** [needle in s] for two [str]s. *)
Fixpoint str_contains (needle s : pystr) : bool :=
  is_prefix needle s || match s with [] => false | _ :: s' => str_contains needle s' end.

(** [needle in v] for a [str] needle. *)
Definition py_contains (v : value) (needle : pystr) : exc bool :=
  match v with
  | VDict d => Ok (if assoc_get needle d then true else false)
  | VList l => Ok (existsb (fun x => match x with
                                     | VStr s => bool_decide (s = needle)
                                     | _ => false end) l)
  | VStr s => Ok (str_contains needle s)
  | _ => Raise (type_error (u "argument of type '" ++ type_name v ++ u "' is not iterable"))
  end.

(** [v.get(k, default)]: only dicts have [get]. *)
Definition py_get (v : value) (k : pystr) (default : value) : exc value :=
  match v with
  | VDict d => Ok (dict_get d k default)
  | _ => Raise (PyExc (u "AttributeError")
                  (u "'" ++ type_name v ++ u "' object has no attribute 'get'"))
  end.

(* ------------------------------------------------------------------ *)
(** ** [_create_html_table] and [_format_sql_result_as_html_table] *)

Definition no_data_div : pystr := q "<div class=`no-data`>暂无数据</div>".

(** One [<td>]: [None] shows as empty, numbers as [str()], anything else as
    [str()] with the displayed text cut to 97 characters plus ["..."] when
    longer than 100; the [data-value] attribute has [&quot;] for quotes. *)
Definition cell_html (cell : value) : pystr :=
  let '(cell_value, display_value) :=
    match cell with
    | VNone => ([], [])
    | VBool _ | VInt _ => (py_str cell, py_str cell)
    | _ => let s := py_str cell in
           (s, if Nat.ltb 100 (length s) then firstn 97 s ++ u "..." else s)
    end in
  let escaped_value := flat_map (fun c => if c =? 34 then u "&quot;" else [c]) cell_value in
  q "<td data-value=`" ++ escaped_value ++ q "`>" ++ display_value ++ u "</td>".

Fixpoint rows_html (headers : list pystr) (rows : list value) : exc pystr :=
  match rows with
  | [] => Ok []
  | row :: rest =>
      let fix cells (hs : list pystr) : exc pystr :=
        match hs with
        | [] => Ok []
        | h :: hs' => let* c := py_get row h (VStr []) in
                      let* t := cells hs' in Ok (cell_html c ++ t)
        end in
      let* cs := cells headers in
      let* t := rows_html headers rest in
      Ok (u "<tr>" ++ cs ++ u "</tr>" ++ t)
  end.

Definition table_toolbar (shown total : nat) (table_id : pystr) : pystr :=
  q "
        <div class=`table-toolbar`>
            <div class=`table-info`>
                数据行数: "
  ++ py_str_int (Z.of_nat shown)
  ++ q " / "
  ++ py_str_int (Z.of_nat total)
  ++ q "
            </div>
            <div class=`table-actions`>
                <button class=`copy-table-btn` onclick=`copyTableData('"
  ++ table_id
  ++ q "')` title=`复制表格数据`>
                    <i class=`fas fa-copy`></i> 复制数据
                </button>
                <button class=`copy-csv-btn` onclick=`copyTableAsCSV('"
  ++ table_id
  ++ q "')` title=`复制为CSV格式`>
                    <i class=`fas fa-file-csv`></i> 复制CSV
                </button>
            </div>
        </div>
        ".

(** [_create_html_table(data)]; [millis] is the clock reading
    [int(time.time()*1000)] that names the table. *)
Definition _create_html_table (millis : Z) (data : value) : exc pystr :=
  match data with
  | VList ((row0 :: _) as rows) =>
      let headers := match row0 with VDict d => map fst d | _ => [] end in
      match headers with
      | [] => Ok (q "<div class=`no-data`>数据格式错误</div>")
      | _ =>
          let display_data := firstn 100 rows in
          let show_more := Nat.ltb 100 (length rows) in
          let table_id := u "table_" ++ py_str_int millis in
          let* body := rows_html headers display_data in
          Ok (q "<div class=`table-container`>"
              ++ table_toolbar (length display_data) (length rows) table_id
              ++ q "<table class=`data-table` id=`" ++ table_id ++ q "`>"
              ++ u "<thead><tr>"
              ++ flat_map (fun h => u "<th>" ++ h ++ u "</th>") headers
              ++ u "</tr></thead>"
              ++ u "<tbody>" ++ body ++ u "</tbody>"
              ++ u "</table>"
              ++ (if show_more
                  then q "<div class=`table-more-info`>显示前100行，共" ++ py_str_int (Z.of_nat (length rows))
                       ++ u "行数据。复制功能将包含所有显示的数据。</div>"
                  else [])
              ++ u "</div>")
      end
  | _ => Ok no_data_div
  end.

(** [sql_preview = result_item.get("sql", "")], then
    [if len(sql_preview) > 50: sql_preview = sql_preview[:50] + "..."]. *)
Definition cut_sql_preview (v : value) : exc value :=
  match v with
  | VStr s => Ok (if Nat.ltb 50 (length s) then VStr (firstn 50 s ++ u "...") else VStr s)
  | VList l =>
      if Nat.ltb 50 (length l)
      then Raise (type_error (u "can only concatenate list (not " ++ [34] ++ u "str"
                              ++ [34] ++ u ") to list"))
      else Ok v
  | VDict d =>
      if Nat.ltb 50 (length d)
      then Raise (PyExc (u "KeyError") (u "slice(None, 50, None)"))
      else Ok v
  | _ => Raise (type_error (u "object of type '" ++ type_name v ++ u "' has no len()"))
  end.

Definition query_error_section (query_index err : pystr) : pystr :=
  q "
                        <div class=`query-result-section`>
                            <h4>查询 "
  ++ query_index
  ++ q "</h4>
                            <div class=`error-message`>❌ "
  ++ err
  ++ q "</div>
                        </div>
                        ".

Definition query_result_section (query_index sql_preview row_count column_count table_html
    : pystr) : pystr :=
  q "
                        <div class=`query-result-section`>
                            <h4>查询 "
  ++ query_index
  ++ q ": "
  ++ sql_preview
  ++ q "</h4>
                            <div class=`result-stats`>行数: "
  ++ row_count
  ++ q " | 列数: "
  ++ column_count
  ++ q "</div>
                            "
  ++ table_html
  ++ q "
                        </div>
                        ".

(** The [for i, result_item in enumerate(...)] loop of the multiple-query branch. *)
Fixpoint query_sections (millis : Z) (i : nat) (items : list value) : exc (list pystr) :=
  match items with
  | [] => Ok []
  | item :: rest =>
      let* has_error := py_contains item (u "error") in
      let* part :=
        if has_error then
          let* qi := py_get item (u "query_index") (vint_of_nat (S i)) in
          let* err := py_get item (u "error") VNone in
          Ok (query_error_section (py_str qi) (py_str err))
        else
          let* sql := py_get item (u "sql") (VStr []) in
          let* sql_preview := cut_sql_preview sql in
          let* res := py_get item (u "result") (VList []) in
          let* table_html := _create_html_table millis res in
          let* qi := py_get item (u "query_index") (vint_of_nat (S i)) in
          let* rc := py_get item (u "row_count") (VInt 0) in
          let* cc := py_get item (u "column_count") (VInt 0) in
          Ok (query_result_section (py_str qi) (py_str sql_preview) (py_str rc) (py_str cc)
                table_html) in
      let* parts := query_sections millis (S i) rest in
      Ok (part :: parts)
  end.

(** [_format_sql_result_as_html_table(value)]: the [try] body, and on any
    exception the fallback [json.dumps(value)] (which may itself raise). *)
Definition _format_sql_result_as_html_table (millis : Z) (v : value) : exc pystr :=
  let attempt :=
    match v with
    | VDict d =>
        if truthy (dict_get d (u "multiple_queries") VNone) then
          let* items := py_iter (dict_get d (u "results") (VList [])) in
          let* parts := query_sections millis 0 items in
          Ok (q "<div class=`sql-results-container`>" ++ concat parts ++ u "</div>")
        else if assoc_get (u "error") d then
          Ok (q "<div class=`error-message`>❌ " ++ py_str (dict_get d (u "error") VNone)
              ++ u "</div>")
        else json_dumps v
    | VList _ => _create_html_table millis v
    | _ => json_dumps v
    end in
  match attempt with
  | Ok r => Ok r
  | Raise _ => json_dumps v
  end.

(* ------------------------------------------------------------------ *)
(** ** The placeholder pattern
    [\{\s*"([a-zA-Z0-9_]+)"\s*:\s*"([a-zA-Z0-9_\-:.]+)"\s*\}]

    Every repetition in the pattern is followed by a character it cannot
    match ([\s] never matches a quote, a colon or a brace; the two classes
    never match a quote), so the greedy longest run is the only way to
    match and the pattern is matched deterministically by [span]. *)

(** [\s] on a [str] pattern: [Py_UNICODE_ISSPACE]. *)
Definition is_space (c : N) : bool :=
  ((9 <=? c) && (c <=? 13)) || ((28 <=? c) && (c <=? 32)) || (c =? 133) || (c =? 160)
  || (c =? 5760) || ((8192 <=? c) && (c <=? 8202)) || (c =? 8232) || (c =? 8233)
  || (c =? 8239) || (c =? 8287) || (c =? 12288).

(** [[a-zA-Z0-9_]] *)
Definition is_tool_char (c : N) : bool :=
  ((97 <=? c) && (c <=? 122)) || ((65 <=? c) && (c <=? 90)) || ((48 <=? c) && (c <=? 57))
  || (c =? 95).

(** [[a-zA-Z0-9_\-:.]] *)
Definition is_var_char (c : N) : bool :=
  is_tool_char c || (c =? 45) || (c =? 58) || (c =? 46).

Fixpoint span (f : N -> bool) (s : pystr) : pystr * pystr :=
  match s with
  | [] => ([], [])
  | c :: r => if f c then let '(a, b) := span f r in (c :: a, b) else ([], s)
  end.

(** One literal character. *)
Definition eat (c : N) (s : pystr) : option pystr :=
  match s with
  | d :: r => if d =? c then Some r else None
  | [] => None
  end.

(** The text of a match: [{], blanks, the quoted tool name, blanks, [:],
    blanks, the quoted variable name, blanks, [}]. *)
Definition token_text (w1 tool w2 w3 var w4 : pystr) : pystr :=
  [123] ++ w1 ++ [34] ++ tool ++ [34] ++ w2 ++ [58] ++ w3 ++ [34] ++ var ++ [34] ++ w4 ++ [125].

(** A match of the pattern at the start of [s]: group 1, group 2, the
    matched text (group 0) and the remaining text. *)
Definition match_at (s : pystr) : option (pystr * pystr * pystr * pystr) :=
  s1 ← eat 123 s;
  let '(w1, s2) := span is_space s1 in
  s3 ← eat 34 s2;
  let '(tool, s4) := span is_tool_char s3 in
  s5 ← eat 34 s4;
  let '(w2, s6) := span is_space s5 in
  s7 ← eat 58 s6;
  let '(w3, s8) := span is_space s7 in
  s9 ← eat 34 s8;
  let '(var, s10) := span is_var_char s9 in
  s11 ← eat 34 s10;
  let '(w4, s12) := span is_space s11 in
  rest ← eat 125 s12;
  match tool, var with
  | _ :: _, _ :: _ => Some (tool, var, token_text w1 tool w2 w3 var w4, rest)
  | _, _ => None
  end.

(** [pattern.sub(repl, text)]: scan left to right; at a match, emit the
    replacement and resume after the match; elsewhere copy one character.
    [fuel] bounds the number of steps; [length text] is enough since every
    step consumes at least one character. *)
Fixpoint pattern_sub (repl : pystr -> pystr -> pystr -> exc pystr) (fuel : nat) (s : pystr)
  : exc pystr :=
  match fuel with
  | O => Ok s
  | S fuel' =>
      match s with
      | [] => Ok []
      | c :: s' =>
          match match_at s with
          | Some (tool, var, lexeme, rest) =>
              let* r := repl tool var lexeme in
              let* t := pattern_sub repl fuel' rest in
              Ok (r ++ t)
          | None =>
              let* t := pattern_sub repl fuel' s' in
              Ok (c :: t)
          end
      end
  end.

(** The [replacer] closure of [resolve_placeholders_in_text]. *)
Definition replacer (p : processor) (millis : Z) (tool var lexeme : pystr) : exc pystr :=
  if bool_decide (_known_tools p ≠ ∅) && negb (bool_decide (tool ∈ _known_tools p))
  then Ok lexeme
  else match get_binding p tool var with
       | VNone => Ok lexeme
       | v =>
           let attempt := if bool_decide (tool = u "execute_sql")
                          then _format_sql_result_as_html_table millis v
                          else json_dumps v in
           match attempt with
           | Ok r => Ok r
           | Raise _ => Ok lexeme
           end
       end.

(** The shape of a match of the placeholder pattern. *)
Definition token_shape (tool var lex : pystr) : Prop :=
  exists w1 w2 w3 w4,
    lex = token_text w1 tool w2 w3 var w4 /\
    Forall (fun c => is_space c = true) w1 /\ Forall (fun c => is_space c = true) w2 /\
    Forall (fun c => is_space c = true) w3 /\ Forall (fun c => is_space c = true) w4 /\
    Forall (fun c => is_tool_char c = true) tool /\ Forall (fun c => is_var_char c = true) var /\
    tool <> [] /\ var <> [].

(** [pattern.sub(repl, s)], with fuel enough for every position of [s]. *)
Definition sub_all (repl : pystr -> pystr -> pystr -> exc pystr) (s : pystr) : exc pystr :=
  pattern_sub repl (length s) s.

(** [resolve_placeholders_in_text(text)]; [None] stands for Python's
    [None], and [millis] is the clock reading used for table ids. *)
Definition resolve_placeholders_in_text (p : processor) (millis : Z) (text : option pystr)
  : exc pystr :=
  match text with
  | None => Ok []
  | Some [] => Ok []
  | Some t => pattern_sub (replacer p millis) (length t) t
  end.

(* ------------------------------------------------------------------ *)
(** ** Drivers for register sequences *)

(** [register_binding(tool, value, var_name)] with an explicit name. *)
Definition register_named (p : processor) (tool name : pystr) (v : value) : processor :=
  (register_binding p tool v (Some name) 0 []).1.

Definition register_seq (p : processor) (regs : list (pystr * pystr * value)) : processor :=
  fold_left (fun p r => register_named p r.1.1 r.1.2 r.2) regs p.

(** The names [b1], ..., [bn] with values [1], ..., [n] under tool [t]. *)
Definition fresh_regs (tool : pystr) (n : nat) : list (pystr * pystr * value) :=
  map (fun i => (tool, u "b" ++ py_str_int (Z.of_nat i), vint_of_nat i)) (seq 1 n).

(** The store's keys all occur in the order list, and the order list is
    within the capacity. *)
Definition store_inv (p : processor) : Prop :=
  dom (_store p) ⊆ list_to_set (_order p) /\ (length (_order p) <= max_store_items p)%nat.

(** Re-registering a name after 49 fresh names, at the default capacity. *)
Definition regs_reregister_stale : list (pystr * pystr * value) :=
  [(u "t", u "a", VInt 1); (u "t", u "a", VInt 1)] ++ fresh_regs (u "t") 49.

Definition proc_before_last : processor := register_seq default_processor regs_reregister_stale.

Definition proc_after_last : processor := register_named proc_before_last (u "t") (u "a") (VInt 3).

(** One binding and 49 fresh names, at the default capacity. *)
Definition proc_full_with_a : processor :=
  register_seq default_processor ((u "t", u "a", VInt 1) :: fresh_regs (u "t") 49).

(** Capacity 2, the key [a] registered twice. *)
Definition proc_aa : processor :=
  register_seq (new_processor 2 50 2000) [(u "t", u "a", VInt 1); (u "t", u "a", VInt 1)].

(** A sequence of [register_binding(tool, value, var_name)] calls, each
    with its clock reading and [uuid4().hex]. *)
Definition register_calls (p : processor) (calls : list (pystr * value * option pystr * Z * pystr))
  : processor :=
  fold_left (fun p '(tool, v, n, ms, h) => (register_binding p tool v n ms h).1) calls p.

(** The concrete case of the spec: the rows [[{"x": 1}]], a clock reading
    and a [uuid4().hex]. *)
Definition sql_rows : value := VList [VDict [(u "x", VInt 1)]].
Definition demo_millis : Z := 1700000000000.
Definition demo_uuid : pystr := u "0123456789abcdef0123456789abcdef".

(** The placeholder text [{"<tool>":"<var>"}]. *)
Definition placeholder (tool var : pystr) : pystr :=
  q "{`" ++ tool ++ q "`:`" ++ var ++ q "`}".

(** The processor of [OpenAIConnector] after [set_tool_registry] with the
    two tools [DialogueService] registers. *)
Definition app_processor : processor :=
  register_known_tool (register_known_tool default_processor (u "execute_sql"))
    (u "create_pptx_presentation").

(** [name = register_binding(tool, v)] followed by
    [resolve_placeholders_in_text('{"<tool>":"<name>"}')]. *)
Definition register_then_resolve (p : processor) (tool : pystr) (v : value)
  : pystr * exc pystr :=
  let '(p', n) := register_binding p tool v None demo_millis demo_uuid in
  (n, resolve_placeholders_in_text p' demo_millis (Some (placeholder tool n))).

(** A value [y] is [x] cut at the top level only: a list to a prefix of
    [K] items, a string to a prefix of [M] characters, anything else kept. *)
Definition cut_value (K M : nat) (x y : value) : Prop :=
  match x with
  | VList l => exists l', y = VList l' /\ (exists k, l = l' ++ k) /\ length l' = Nat.min K (length l)
  | VStr s => exists s', y = VStr s' /\ (exists k, s = s' ++ k) /\ length s' = Nat.min M (length s)
  | _ => y = x
  end.

(** A string of 2001 characters [a], one more than the default
    [preview_max_chars]. *)
Definition long_text : pystr := repeat 97 2001.

(* ------------------------------------------------------------------ *)
(** ** [ToolRegistry] (src/tools/tool_registry.py) *)

(** A [ToolHandler]: its [name] and [execute(args, context)], which returns
    [(success, result)] or raises. *)
Record tool_handler := ToolHandler {
  name : pystr;
  execute : value -> value -> exc (bool * pystr)
}.

Record tool_registry := ToolRegistry {
  _handlers : gmap pystr tool_handler
}.

Definition empty_registry : tool_registry := ToolRegistry ∅.

Definition register (r : tool_registry) (handler : tool_handler) : tool_registry :=
  ToolRegistry (<[name handler := handler]> (_handlers r)).

Definition get_handler (r : tool_registry) (tool_name : pystr) : option tool_handler :=
  _handlers r !! tool_name.

(** [execute_tool(tool_name, args, context)]; [str(e)] is the message of
    the exception. A handler object is always truthy. *)
Definition execute_tool (r : tool_registry) (tool_name : pystr) (args context : value)
  : exc (pystr * pystr) :=
  match get_handler r tool_name with
  | None =>
      let* j := json_dumps (VDict [(u "error", VStr (u "未知的工具：" ++ tool_name))]) in
      Ok (tool_name, j)
  | Some handler =>
      match execute handler args context with
      | Ok (success, result) => Ok (tool_name, result)
      | Raise e =>
          let* j := json_dumps (VDict [(u "error", VStr (u "工具执行失败：" ++ exc_msg e))]) in
          Ok (tool_name, j)
      end
  end.

(** The text [json.dumps({"error": msg}, ensure_ascii=False)]. *)
Definition error_payload (msg : pystr) : pystr :=
  u "{" ++ json_str (u "error") ++ u ": " ++ json_str msg ++ u "}".

Definition unknown_tool_message (tool_name : pystr) : pystr := u "未知的工具：" ++ tool_name.

(** A handler whose [execute] returns [(success, result)] for any input. *)
Definition const_handler (n : pystr) (success : bool) (result : pystr) : tool_handler :=
  ToolHandler n (fun _ _ => Ok (success, result)).

(** A registry whose tool [t] reports success with the very text of the
    unknown-tool error. *)
Definition registry_with_echo : tool_registry :=
  register empty_registry (const_handler (u "t") true (error_payload (unknown_tool_message (u "t")))).

(* ------------------------------------------------------------------ *)
(** ** [OpenAIConnector._handle_chat_with_tools] (src/llm_client.py) *)

Record tool_call := ToolCall {
  tc_id : pystr;
  tc_name : pystr;
  tc_arguments : pystr
}.

(** A message of the conversation sent to the gateway. *)
Record chat_message := ChatMessage {
  role : pystr;
  content : option pystr;
  tool_calls : list tool_call;
  tool_call_id : option pystr
}.

(** [response.choices[0].message]: its content and tool calls ([None] and
    the empty list are both falsy and are both written [[]]). *)
Record llm_message := LlmMessage {
  msg_content : option pystr;
  msg_tool_calls : list tool_call
}.

(** The arguments of one [client.chat.completions.create] call. *)
Record request := Request {
  req_messages : list chat_message;
  req_tools : option (list value);
  req_tool_choice : option pystr
}.

Definition final_directive : pystr :=
  u "请基于以上工具调用的结果，直接给出最终答案，不要再调用任何工具。".

(** [MockResponse(f"达到最大工具调用轮数，且获取最终响应时出错: {str(e)}")]. *)
Definition mock_response (e : pyexc) : llm_message :=
  LlmMessage (Some (u "达到最大工具调用轮数，且获取最终响应时出错: " ++ exc_msg e)) [].

Section ToolCallLoop.

Context {St : Type}.
(** The gateway, given the number of calls made so far and the request. *)
Variable gateway : nat -> request -> exc llm_message.
(** [self._execute_tool_call(tool_call)], threading the connector's state
    (its variable processor). *)
Variable _execute_tool_call : St -> tool_call -> St * exc (pystr * pystr).
Variable tools : list value.
Variable tool_choice : option pystr.
Variable max_tool_rounds : Z.

(** The inner [for tool_call in message.tool_calls] loop. *)
Fixpoint run_tool_calls (st : St) (msgs : list chat_message) (calls : list tool_call)
  : St * list chat_message :=
  match calls with
  | [] => (st, msgs)
  | tc :: rest =>
      let '(st', r) := _execute_tool_call st tc in
      let result := match r with
                    | Ok (_, result) => result
                    | Raise e => error_payload (exc_msg e)
                    end in
      run_tool_calls st' (msgs ++ [ChatMessage (u "tool") (Some result) [] (Some (tc_id tc))]) rest
  end.

(** The [while current_round < max_tool_rounds] loop; [sent] lists the
    gateway calls made. The result carries the message returned by the loop,
    or [None] when the loop exits by its condition. Fuel [Z.to_nat
    max_tool_rounds] only runs out when the condition is false. *)
Fixpoint tool_rounds (fuel : nat) (current_round : Z) (st : St) (msgs : list chat_message)
    (sent : list request) : exc (St * list chat_message * list request * option llm_message) :=
  match fuel with
  | O => Ok (st, msgs, sent, None)
  | S fuel' =>
      if (current_round <? max_tool_rounds)%Z then
        let req := Request msgs (Some tools) tool_choice in
        let* message := gateway (length sent) req in
        match msg_tool_calls message with
        | [] => Ok (st, msgs, sent ++ [req], Some message)
        | calls =>
            let msgs1 := msgs ++ [ChatMessage (u "assistant") None calls None] in
            let '(st', msgs2) := run_tool_calls st msgs1 calls in
            tool_rounds fuel' (current_round + 1) st' msgs2 (sent ++ [req])
        end
      else Ok (st, msgs, sent, None)
  end.

(** [_handle_chat_with_tools(messages, model, tools, tool_choice,
    max_tool_rounds)]: the final state, the returned message and the
    gateway calls made. *)
Definition _handle_chat_with_tools (st : St) (messages : list chat_message)
  : exc (St * llm_message * list request) :=
  let* res := tool_rounds (Z.to_nat max_tool_rounds) 0 st messages [] in
  let '(st', msgs, sent, r) := res in
  match r with
  | Some message => Ok (st', message, sent)
  | None =>
      let req := Request (msgs ++ [ChatMessage (u "user") (Some final_directive) [] None])
                   None None in
      match gateway (length sent) req with
      | Ok final_response => Ok (st', final_response, sent ++ [req])
      | Raise e => Ok (st', mock_response e, sent ++ [req])
      end
  end.

End ToolCallLoop.

(** A gateway that requests a tool call whenever tools are enabled and
    fails on the call without tools. *)
Definition always_calling_gateway (n : nat) (req : request) : exc llm_message :=
  match req_tools req with
  | Some _ => Ok (LlmMessage None [ToolCall (u "call_" ++ py_str_int (Z.of_nat n)) (u "execute_sql") (q "{}")])
  | None => Raise (PyExc (u "APIError") (u "gateway unavailable"))
  end.

(** A tool runner that counts its calls and returns a fixed result. *)
Definition counting_tool_call (st : nat) (tc : tool_call) : nat * exc (pystr * pystr) :=
  (S st, Ok (tc_name tc, u "ok")).

(* ------------------------------------------------------------------ *)
(** ** [DialogueService._generate_slide_content] and
       [DialogueService.generate_ppt_async] (src/dialogue_service.py) *)

(** The items of [sep.join(v)] from the [i]-th on: each must be a [str]. *)
Fixpoint join_items (i : Z) (items : list value) : exc (list pystr) :=
  match items with
  | [] => Ok []
  | VStr s :: rest => let* r := join_items (i + 1) rest in Ok (s :: r)
  | x :: _ =>
      Raise (type_error (u "sequence item " ++ py_str_int i ++ u ": expected str instance, "
                         ++ type_name x ++ u " found"))
  end.

(** [sep.join(v)] for a list, a string or a dict (whose keys it joins). *)
Definition py_str_join (sep : pystr) (v : value) : exc pystr :=
  match v with
  | VList _ | VStr _ | VDict _ =>
      let* items := py_iter v in
      let* parts := join_items 0 items in
      Ok (py_join sep parts)
  | _ => Raise (type_error (u "can only join an iterable"))
  end.

(** The statements of [_generate_slide_content] before its [try]: the
    [get] calls on [subsection] and [key_points = "\n".join(...)]. The
    remaining [get] calls and the f-string cannot raise once [subsection] is
    a dict. *)
Definition slide_prologue (subsection : value) : exc pystr :=
  let* _ := py_get subsection (u "subsection_title") (VStr (u "Unknown")) in
  let* kp := py_get subsection (u "key_points") (VList []) in
  py_str_join [10] kp.

(** How the body of the [try] ends: with the slide built from the LLM
    answer, with a [ValueError] (the JSON could not be parsed) or with any
    other exception, each carrying [str(e)]. The body calls the LLM, so it is
    a parameter of the model. *)
Inductive slide_attempt :=
| GenOk (slide : value)
| GenValueError (msg : pystr)
| GenError (msg : pystr).

Definition text_block (text : pystr) (bullet_points : list pystr) : value :=
  VDict [(u "type", VStr (u "text")); (u "text", VStr text);
         (u "bullet_points", VList (map VStr bullet_points))].

Definition content_slide (title : value) (contents : list value) : value :=
  VDict [(u "type", VStr (u "content")); (u "title", title); (u "contents", VList contents)].

(** [_generate_slide_content(section_title, subsection, data_context,
    main_objective)] with [attempt] the outcome of the body of its [try]. *)
Definition _generate_slide_content (attempt : pystr -> value -> slide_attempt)
    (section_title : pystr) (subsection : value) : exc value :=
  let* _ := slide_prologue subsection in
  match attempt section_title subsection with
  | GenOk slide => Ok slide
  | GenValueError e =>
      let* title := py_get subsection (u "subsection_title") (VStr (u "错误页面")) in
      Ok (content_slide title
            [text_block (u "内容生成失败：" ++ e) [u "LLM返回的JSON格式无效"; u "请检查prompt设置"]])
  | GenError e =>
      let* title := py_get subsection (u "subsection_title") (VStr (u "错误页面")) in
      Ok (content_slide title [text_block (u "生成内容时出错: " ++ e) []])
  end.

(** A section of the outline returned by [_generate_ppt_outline], with the
    values its [get] calls return. *)
Record outline_section := OutlineSection {
  section_number : value;
  section_title : value;
  subsections : list value
}.

Record outline := Outline {
  outline_title : value;
  sections : list outline_section
}.

(** [f"{section_idx}_{subsection_idx}"] *)
Definition content_key (section_idx subsection_idx : nat) : pystr :=
  py_str_int (Z.of_nat section_idx) ++ u "_" ++ py_str_int (Z.of_nat subsection_idx).

(** The submitted jobs, in submission order: the key, the section title and
    the subsection. *)
Definition content_units (o : outline) : list (pystr * pystr * value) :=
  concat (imap (fun section_idx section =>
                  imap (fun subsection_idx subsection =>
                          (content_key section_idx subsection_idx,
                           py_str (section_title section), subsection))
                       (subsections section))
               (sections o)).

(** [for content_key, future in futures: result = await future]: the
    futures are awaited in submission order, so the first one (in that
    order) whose job raised raises here, whatever the order of completion. *)
Fixpoint await_all (futures : list (pystr * exc value)) : exc (list (pystr * value)) :=
  match futures with
  | [] => Ok []
  | (k, f) :: rest => let* result := f in let* r := await_all rest in Ok ((k, result) :: r)
  end.

Definition build_content_map (results : list (pystr * value)) : gmap pystr value :=
  foldl (fun m kv => <[kv.1 := kv.2]> m) ∅ results.

Definition section_slide (section : outline_section) : value :=
  VDict [(u "type", VStr (u "section"));
         (u "title", VStr (py_str (section_number section) ++ u " " ++ py_str (section_title section)))].

(** The assembly loop over the sections. *)
Definition assemble_slides (o : outline) (content_map : gmap pystr value) : list value :=
  concat (imap (fun section_idx section =>
                  section_slide section ::
                  omap id (imap (fun subsection_idx _ =>
                                   content_map !! content_key section_idx subsection_idx)
                                (subsections section)))
               (sections o)).

Definition summary_subsection : value :=
  VDict [(u "subsection_title", VStr (u "总结")); (u "analysis_type", VStr (u "summary"));
         (u "chart_type", VStr (u "none")); (u "data_query", VStr []);
         (u "key_points", VList [])].

(** What [generate_ppt_async] returns: the file written with these slides
    (["✅ PPT生成成功！..."]) or the returned failure text. *)
Inductive ppt_result :=
| PptCreated (slides : list value)
| PptFailed (message : pystr).

(** [generate_ppt_async(user_requirement)] once the outline is generated,
    with [date] the formatted date of the cover. Writing the file is not
    modelled. *)
Definition generate_ppt_async (attempt : pystr -> value -> slide_attempt) (o : outline)
    (date : pystr) : ppt_result :=
  let cover := VDict [(u "type", VStr (u "cover")); (u "title", outline_title o);
                      (u "subtitle", VStr (u "生成时间：" ++ date))] in
  let futures := map (fun '(k, st, sub) => (k, _generate_slide_content attempt st sub))
                     (content_units o) in
  match await_all futures with
  | Raise e => PptFailed (u "❌ PPT生成失败：" ++ exc_msg e)
  | Ok content_results =>
      let slides := cover :: assemble_slides o (build_content_map content_results) in
      match _generate_slide_content attempt (u "总结与展望") summary_subsection with
      | Ok summary_slide => PptCreated (slides ++ [summary_slide])
      | Raise _ => PptCreated slides
      end
  end.

(** The case of the spec: units A, B, C of one section, where the outline
    gives B the key point [1] (a number). *)
Definition unit_A : value :=
  VDict [(u "subsection_title", VStr (u "A")); (u "key_points", VList [VStr (u "a")])].
Definition unit_B : value :=
  VDict [(u "subsection_title", VStr (u "B")); (u "key_points", VList [VInt 1])].
Definition unit_C : value :=
  VDict [(u "subsection_title", VStr (u "C")); (u "key_points", VList [VStr (u "c")])].

Definition abc_outline : outline :=
  Outline (VStr (u "Report")) [OutlineSection (VStr (u "1")) (VStr (u "S")) [unit_A; unit_B; unit_C]].

(** An LLM that answers every page with a slide of that page's title. *)
Definition echo_attempt (section_title : pystr) (subsection : value) : slide_attempt :=
  GenOk (content_slide (match py_get subsection (u "subsection_title") (VStr []) with
                        | Ok t => t
                        | Raise _ => VNone
                        end) []).

(* ------------------------------------------------------------------ *)
(** ** [clean_column_names_with_replacement] (src/tools/db.py) *)

(** [s.lstrip(chars)]: drop the leading characters satisfying [f]. *)
Fixpoint lstrip_by (f : N -> bool) (s : pystr) : pystr :=
  match s with
  | [] => []
  | c :: r => if f c then lstrip_by f r else s
  end.

(** [s.rstrip(chars)]: drop the trailing characters satisfying [f]. *)
Fixpoint rstrip_by (f : N -> bool) (s : pystr) : pystr :=
  match s with
  | [] => []
  | c :: r =>
      let r' := rstrip_by f r in
      match r' with
      | [] => if f c then [] else [c]
      | _ => c :: r'
      end
  end.

Definition strip_by (f : N -> bool) (s : pystr) : pystr := rstrip_by f (lstrip_by f s).

(** [s.strip()]: whitespace is [Py_UNICODE_ISSPACE], as for [\s]. *)
Definition py_strip (s : pystr) : pystr := strip_by is_space s.

(** [[一-龥a-zA-Z0-9]] *)
Definition is_name_char (c : N) : bool :=
  ((19968 <=? c) && (c <=? 40869)) || ((97 <=? c) && (c <=? 122))
  || ((65 <=? c) && (c <=? 90)) || ((48 <=? c) && (c <=? 57)).

(** [re.sub(r'[^一-龥a-zA-Z0-9]+', '_', s)]: the greedy [+]
    matches each maximal run of characters outside the class, and each run
    becomes one [_]. [in_run] tells whether the previous character belongs
    to such a run: the first character of a run emits the [_], the others
    nothing. *)
Fixpoint sub_nonname_runs (in_run : bool) (s : pystr) : pystr :=
  match s with
  | [] => []
  | c :: r =>
      if is_name_char c then c :: sub_nonname_runs false r
      else if in_run then sub_nonname_runs true r
      else 95 :: sub_nonname_runs true r
  end.

(** The first four statements of the loop body, from [str(col)] to the
    [unnamed_column] default. *)
Definition clean_name (col : pystr) : pystr :=
  let col_cleaned := py_strip col in
  let col_cleaned := sub_nonname_runs false col_cleaned in
  let col_cleaned := strip_by (N.eqb 95) col_cleaned in
  match col_cleaned with
  | [] => u "unnamed_column"
  | _ => col_cleaned
  end.

(** [while col_cleaned in _seen: col_cleaned = f"{original_col}_{counter}";
    counter += 1]. The loop ends since the candidates are pairwise distinct
    and [_seen] is finite; [fuel] bounds its iterations, and
    [S (size _seen)] is enough (lemma [find_free_fresh]). *)
Fixpoint find_free (fuel : nat) (_seen : gset pystr) (original_col : pystr) (counter : nat)
    (col_cleaned : pystr) : pystr :=
  match fuel with
  | O => col_cleaned
  | S fuel' =>
      if bool_decide (col_cleaned ∈ _seen)
      then find_free fuel' _seen original_col (S counter)
             (original_col ++ [95] ++ py_str_int (Z.of_nat counter))
      else col_cleaned
  end.

(** The [for col in df.columns] loop, from a set [_seen]; the result is
    [new_columns]. *)
Fixpoint clean_columns (_seen : gset pystr) (cols : list pystr) : list pystr :=
  match cols with
  | [] => []
  | col :: rest =>
      let original_col := clean_name col in
      let col_cleaned := find_free (S (size _seen)) _seen original_col 1 original_col in
      col_cleaned :: clean_columns ({[col_cleaned]} ∪ _seen) rest
  end.

(** The new [df.columns] for the labels [columns] ([str(col)] of each). *)
Definition clean_column_names_with_replacement (columns : list value) : list pystr :=
  clean_columns ∅ (map py_str columns).

(** A cleaned name: one or more non-empty runs of class characters joined
    by single underscores. [need_char]: at the start or right after an
    underscore, where a class character must follow. *)
Fixpoint clean_from (need_char : bool) (s : pystr) : bool :=
  match s with
  | [] => negb need_char
  | c :: r =>
      if is_name_char c then clean_from false r
      else (c =? 95) && negb need_char && clean_from true r
  end.

Definition is_clean_column_name (s : pystr) : bool := clean_from true s.

(** The [k]-th name tried by the [while] loop for [original_col]. *)
Definition candidate (original_col : pystr) (k : nat) : pystr :=
  match k with
  | O => original_col
  | S _ => original_col ++ [95] ++ py_str_int (Z.of_nat k)
  end.


(* ------------------------------------------------------------------ *)
(** ** [DataAnalysisToolMultiTable.execute_sql] (src/tools/db.py) *)

(** [s.split(sep)] for a one-character separator. *)
Fixpoint py_split (sep : N) (s : pystr) : list pystr :=
  match s with
  | [] => [[]]
  | c :: r =>
      let parts := py_split sep r in
      if c =? sep then [] :: parts
      else match parts with
           | p :: ps => (c :: p) :: ps
           | [] => [[c]]
           end
  end.

(** [[stmt.strip() for stmt in sql_query.split(';') if stmt.strip()]] *)
Definition split_sql_statements (sql_query : pystr) : list pystr :=
  map py_strip (List.filter (fun stmt => truthy (VStr (py_strip stmt))) (py_split 59 sql_query)).

(** [sql_stmt[:100] + "..." if len(sql_stmt) > 100 else sql_stmt] *)
Definition sql_preview (sql_stmt : pystr) : pystr :=
  if Nat.ltb 100 (length sql_stmt) then firstn 100 sql_stmt ++ u "..." else sql_stmt.

(** A value that [json.dumps] writes without raising. *)
Definition dumpable (v : value) : Prop := exists t, json_dumps v = Ok t.

(** [self._format_error(message)] *)
Definition _format_error (message : pystr) : pystr := error_payload message.

Section ExecuteSql.

Context {conn frame : Type}.
(** [duckdb.connect(database=':memory:')] followed by [con.register(table_name, df)]
    for every table of [dfs]. *)
Variable connect : exc conn.
(** [con.execute(stmt).fetchdf()]: the connection after the statement, and
    the fetched frame or the exception raised. *)
Variable run : conn -> pystr -> conn * exc frame.
(** [self._prepare_dataframe_for_json(df).to_json(orient='records', ...)] *)
Variable to_json_records : frame -> exc pystr.
(** [json.loads] *)
Variable json_loads : pystr -> exc value.
(** [len(result_df)] and [len(result_df.columns)] *)
Variable frame_len frame_columns : frame -> nat.
(** Whether an exception is a [duckdb.Error]. *)
Variable is_duckdb_error : pyexc -> bool.

(** The [for i, sql_stmt in enumerate(sql_statements)] loop: one entry of
    [results] per statement, from index [i]. *)
Fixpoint run_statements (con : conn) (i : nat) (sql_statements : list pystr) : list value :=
  match sql_statements with
  | [] => []
  | sql_stmt :: rest =>
      let '(con', r) := run con sql_stmt in
      let query_index := (u "query_index", VInt (Z.of_nat (S i))) in
      let sql := (u "sql", VStr (sql_preview sql_stmt)) in
      let entry :=
        match (let* result_df := r in
               let* j := to_json_records result_df in
               let* v := json_loads j in
               Ok (result_df, v)) with
        | Ok (result_df, v) =>
            VDict [query_index; sql; (u "result", v);
                   (u "row_count", vint_of_nat (frame_len result_df));
                   (u "column_count", vint_of_nat (frame_columns result_df))]
        | Raise e => VDict [query_index; sql; (u "error", VStr (exc_msg e))]
        end in
      entry :: run_statements con' (S i) rest
  end.

(** The body of the [try] block. *)
Definition execute_sql_body (sql_query : pystr) : exc pystr :=
  let* con := connect in
  let sql_statements := split_sql_statements sql_query in
  match sql_statements with
  | [stmt] => let* result_df := (run con stmt).2 in to_json_records result_df
  | _ =>
      json_dumps (VDict [(u "multiple_queries", VBool true);
                         (u "results", VList (run_statements con 0 sql_statements))])
  end.

(** [execute_sql(dfs, sql_query)], with the two [except] clauses. (The
    [isinstance] guard on [dfs] is the typing of [connect].) *)
Definition execute_sql (sql_query : pystr) : pystr :=
  match execute_sql_body sql_query with
  | Ok s => s
  | Raise e =>
      if is_duckdb_error e then _format_error (u "SQL执行失败: " ++ exc_msg e)
      else _format_error (u "数据处理失败: " ++ exc_msg e)
  end.

End ExecuteSql.

(** An engine for examples: one connection state, frames given by their
    row count, a statement [bad] that DuckDB rejects, and every other
    statement returning the rows of [sql_rows]. *)
Definition demo_connect : exc unit := Ok tt.
Definition demo_run (con : unit) (stmt : pystr) : unit * exc nat :=
  (con, if bool_decide (stmt = u "bad")
        then Raise (PyExc (u "ParserException") (u "Parser Error: syntax error at or near " ++ q "`bad`"))
        else Ok 1%nat).
Definition demo_to_json (df : nat) : exc pystr := Ok (q "[{`x`:1}]").
Definition demo_json_loads (j : pystr) : exc value := Ok sql_rows.
Definition demo_execute_sql (sql_query : pystr) : pystr :=
  execute_sql demo_connect demo_run demo_to_json demo_json_loads (fun n => n) (fun _ => 1%nat)
    (fun _ => true) sql_query.

(* ------------------------------------------------------------------ *)
(** ** [SqlExecutionTool] and [ExcelAnalysisOrchestrator.run_analysis]
    (src/tools/db.py), [PptCreationTool] (src/tools/create_ppt_simplified.py),
    [DialogueService._setup_tools] (src/dialogue_service.py) *)

Definition attribute_error (v : value) (attr : pystr) : pyexc :=
  PyExc (u "AttributeError") (u "'" ++ type_name v ++ u "' object has no attribute '" ++ attr ++ u "'").

(** The class of the object [load_excel] puts under ["excel_orchestrator"]. *)
Definition orchestrator_class : pystr := u "ExcelAnalysisOrchestrator".

(** [json.dumps({"error": msg}, ensure_ascii=False)] as a call. *)
Definition dumps_error (msg : pystr) : exc pystr :=
  json_dumps (VDict [(u "error", VStr msg)]).

Section ToolHandlers.

Context {conn frame : Type}.
(** The engine of [execute_sql], as in [ExecuteSql]; [connect] registers the
    orchestrator's [data_tables]. *)
Variable connect : exc conn.
Variable run : conn -> pystr -> conn * exc frame.
Variable to_json_records : frame -> exc pystr.
Variable json_loads : pystr -> exc value.
Variable frame_len frame_columns : frame -> nat.
Variable is_duckdb_error : pyexc -> bool.
(** [create_pptx_from_json(json_content, output_filename)]: the path of the
    saved file, or the exception it re-raises. *)
Variable create_pptx_from_json : value -> value -> exc pystr.

(** [self.tool.execute_sql(self.data_tables, sql_query)] for any value of
    [sql_query]: a [str] goes through [execute_sql]; any other value reaches
    [sql_query.split(';')] inside the [try] after the connection is made,
    and its [AttributeError] is caught by [except Exception]. *)
Definition execute_sql_any (sql_query : value) : pystr :=
  match sql_query with
  | VStr s =>
      execute_sql connect run to_json_records json_loads frame_len frame_columns is_duckdb_error s
  | v =>
      match connect with
      | Raise e =>
          if is_duckdb_error e then _format_error (u "SQL执行失败: " ++ exc_msg e)
          else _format_error (u "数据处理失败: " ++ exc_msg e)
      | Ok _ => _format_error (u "数据处理失败: " ++ exc_msg (attribute_error v (u "split")))
      end
  end.

(** [excel_orchestrator.run_analysis(sql_query)]: an
    [ExcelAnalysisOrchestrator] runs [execute_sql] on its tables; any other
    object has no [run_analysis]. *)
Definition run_analysis (excel_orchestrator sql_query : value) : exc pystr :=
  match excel_orchestrator with
  | VOther t _ =>
      if bool_decide (t = orchestrator_class) then Ok (execute_sql_any sql_query)
      else Raise (attribute_error excel_orchestrator (u "run_analysis"))
  | v => Raise (attribute_error v (u "run_analysis"))
  end.

(** [SqlExecutionTool.execute(args, context)]. *)
Definition sql_tool_execute (args context : value) : exc (bool * pystr) :=
  let* excel_orchestrator := py_get context (u "excel_orchestrator") VNone in
  if negb (truthy excel_orchestrator) then
    let* j := dumps_error (u "请先上传Excel文件") in Ok (false, j)
  else
    let* sql_query := py_get args (u "sql_query") (VStr []) in
    if negb (truthy sql_query) then
      let* j := dumps_error (u "缺少SQL查询语句") in Ok (false, j)
    else
      match run_analysis excel_orchestrator sql_query with
      | Ok result => Ok (true, result)
      | Raise e => let* j := dumps_error (u "SQL执行失败：" ++ exc_msg e) in Ok (false, j)
      end.

Definition sql_execution_tool : tool_handler := ToolHandler (u "execute_sql") sql_tool_execute.

(** [PptCreationTool.execute(args, context)]. *)
Definition ppt_tool_execute (args context : value) : exc (bool * pystr) :=
  let* json_content := py_get args (u "json_content") (VDict []) in
  let* output_filename := py_get args (u "output_filename") (VStr (u "output")) in
  if negb (truthy json_content) then
    let* j := dumps_error (u "缺少PPT内容数据") in Ok (false, j)
  else
    match create_pptx_from_json json_content output_filename with
    | Ok file_path =>
        let* j := json_dumps (VDict [(u "success", VBool true); (u "file_path", VStr file_path);
                                     (u "message", VStr (u "PPT文件已成功生成：" ++ file_path))]) in
        Ok (true, j)
    | Raise e =>
        let* j := json_dumps (VDict [(u "success", VBool false); (u "error", VStr (exc_msg e))]) in
        Ok (false, j)
    end.

Definition ppt_creation_tool : tool_handler :=
  ToolHandler (u "create_pptx_presentation") ppt_tool_execute.

(** [DialogueService._setup_tools()] on the service's registry. *)
Definition _setup_tools (r : tool_registry) : tool_registry :=
  register (register r sql_execution_tool) ppt_creation_tool.

End ToolHandlers.

(** [ToolRegistry.unregister(tool_name)]. *)
Definition unregister (r : tool_registry) (tool_name : pystr) : tool_registry :=
  ToolRegistry (delete tool_name (_handlers r)).

(* ------------------------------------------------------------------ *)
(** ** [OpenAIConnector._execute_tool_call] (src/llm_client.py) *)

Section ExecuteToolCall.

(** [json.loads] *)
Variable json_loads : pystr -> exc value.

(** [self._execute_tool_call(tool_call)] on the connector's
    [tool_registry] ([None] before [set_tool_registry]), [tool_context] and
    variable processor; [millis] and [uuid_hex] are the clock reading and
    the uuid that name the binding. A [ToolRegistry] object is truthy.
    The [json.loads] of the arguments is outside any [try]. *)
Definition _execute_tool_call (tool_registry : option tool_registry) (tool_context : value)
    (millis : Z) (uuid_hex : pystr) (p : processor) (tc : tool_call)
  : processor * exc (pystr * pystr) :=
  match tool_registry with
  | None =>
      (p, let* j := dumps_error (u "工具注册器未初始化") in Ok (tc_name tc, j))
  | Some r =>
      let function_name := tc_name tc in
      match json_loads (tc_arguments tc) with
      | Raise e => (p, Raise e)
      | Ok function_args =>
          match execute_tool r function_name function_args tool_context with
          | Raise e => (p, Raise e)
          | Ok (tool_name, result_str) =>
              let parsed := match json_loads result_str with
                            | Ok v => v
                            | Raise _ => VStr result_str
                            end in
              let '(p', var_name) := register_binding p tool_name parsed None millis uuid_hex in
              match build_lightweight_tool_payload p' tool_name var_name parsed true with
              | Ok lightweight => (p', Ok (tool_name, lightweight))
              | Raise _ => (p', Ok (tool_name, result_str))
              end
          end
      end
  end.

End ExecuteToolCall.

(** The values [json.loads] can return: no object of another class
    anywhere inside. *)
Fixpoint json_value (v : value) : bool :=
  match v with
  | VList l => forallb json_value l
  | VDict d => forallb (fun kv => json_value kv.2) d
  | VOther _ _ => false
  | _ => true
  end.

(* ------------------------------------------------------------------ *)
(** ** [DialogueService._parse_llm_json_response] (src/dialogue_service.py) *)

(** [s.endswith(suffix)] *)
Definition py_endswith (s suffix : pystr) : bool := is_prefix (rev suffix) (rev s).

Section ParseLlmJson.

Variable json_loads : pystr -> exc value.
(** Whether an exception is a [json.JSONDecodeError]. *)
Variable is_json_decode_error : pyexc -> bool.

Definition _parse_llm_json_response (content : pystr) : exc value :=
  let cleaned := py_strip content in
  let cleaned := if is_prefix (u "```json") cleaned then skipn 7 cleaned else cleaned in
  let cleaned := if py_endswith cleaned (u "```") then firstn (length cleaned - 3)%nat cleaned
                 else cleaned in
  let cleaned := py_strip cleaned in
  match json_loads cleaned with
  | Ok v => Ok v
  | Raise e =>
      if is_json_decode_error e
      then Raise (PyExc (u "ValueError") (u "LLM返回的JSON格式无效: " ++ exc_msg e))
      else Raise e
  end.

End ParseLlmJson.

(** Examples for the tool layer: a PPT writer that always succeeds, the
    service registry over the example engine, a context holding an
    orchestrator, and one-column rows. *)
Definition demo_create_pptx (json_content output_filename : value) : exc pystr := Ok (u "output.pptx").

Definition demo_service_tools : tool_registry :=
  _setup_tools demo_connect demo_run demo_to_json demo_json_loads (fun n => n) (fun _ => 1%nat)
    (fun _ => true) demo_create_pptx empty_registry.

Definition orchestrator_context : list (pystr * value) :=
  [(u "excel_orchestrator", VOther orchestrator_class (u "<ExcelAnalysisOrchestrator>"))].

Definition row_of (i : Z) : value := VDict [(u "id", VInt i)].

(** ======================================================================
    * Theorems
    ====================================================================== *)

Section BindingStore.

Lemma evict_loop_length (cap : nat) (st : gmap key value) (ord : list key) :
  (length (evict_loop cap st ord).2 <= cap)%nat.
Proof.
  revert st; induction ord as [|k r IH]; intros st; simpl; [lia|].
  destruct (Nat.ltb cap (S (length r))) eqn:E.
  - apply IH.
  - simpl. apply Nat.ltb_ge in E. lia.
Qed.

Lemma evict_loop_dom (cap : nat) (st : gmap key value) (ord : list key) :
  dom st ⊆ list_to_set ord ->
  dom (evict_loop cap st ord).1 ⊆ (list_to_set (evict_loop cap st ord).2 : gset key).
Proof.
  revert st; induction ord as [|k r IH]; intros st Hd; simpl in *; [exact Hd|].
  destruct (Nat.ltb cap (S (length r))); simpl; [|exact Hd].
  apply IH. rewrite dom_delete_L. set_solver.
Qed.

Lemma size_list_to_set_le (l : list key) : (size (list_to_set l : gset key) <= length l)%nat.
Proof.
  induction l as [|x l IH].
  - rewrite list_to_set_nil, size_empty. simpl. lia.
  - rewrite list_to_set_cons, size_union_alt, size_singleton.
    pose proof (subseteq_size (list_to_set l ∖ {[x]} : gset key) (list_to_set l)
                  ltac:(set_solver)).
    simpl. lia.
Qed.

Lemma size_le_length (m : gmap key value) (l : list key) :
  dom m ⊆ list_to_set l -> (size m <= length l)%nat.
Proof.
  intros H. rewrite <- size_dom.
  pose proof (subseteq_size _ _ H). pose proof (size_list_to_set_le l). lia.
Qed.

Lemma store_inv_new (c k m : nat) : store_inv (new_processor c k m).
Proof. split; simpl; [rewrite dom_empty_L; set_solver | lia]. Qed.

Lemma store_inv_register (p : processor) (tool : pystr) (v : value) (n : option pystr)
    (ms : Z) (h : pystr) :
  store_inv p -> store_inv (register_binding p tool v n ms h).1.
Proof.
  intros [Hd _]. unfold register_binding, _evict_if_necessary; simpl.
  match goal with |- context [evict_loop ?c ?s ?o] =>
    pose proof (evict_loop_length c s o); pose proof (evict_loop_dom c s o);
    destruct (evict_loop c s o) as [st' ord'] eqn:E end.
  unfold store_inv, set_store in *; cbn in *. split; [|lia].
  apply H0. rewrite dom_insert_L, list_to_set_app_L. set_solver.
Qed.

Lemma store_inv_size (p : processor) : store_inv p -> (size (_store p) <= max_store_items p)%nat.
Proof. intros [Hd Hl]. pose proof (size_le_length _ _ Hd). lia. Qed.

Lemma evict_loop_noop (cap : nat) (st : gmap key value) (ord : list key) :
  (length ord <= cap)%nat -> evict_loop cap st ord = (st, ord).
Proof.
  destruct ord as [|k r]; intros H; cbn [evict_loop]; [reflexivity|].
  replace (Nat.ltb cap (length (k :: r))) with false by (symmetry; apply Nat.ltb_ge; lia).
  reflexivity.
Qed.

Lemma evict_loop_one (cap : nat) (st : gmap key value) (k : key) (rest : list key) :
  length rest = cap -> evict_loop cap st (k :: rest) = (delete k st, rest).
Proof.
  intros H. cbn [evict_loop].
  replace (Nat.ltb cap (length (k :: rest))) with true
    by (symmetry; apply Nat.ltb_lt; cbn [length]; lia).
  apply evict_loop_noop. lia.
Qed.

Lemma register_named_eq (p : processor) (tool name : pystr) (v : value) :
  register_named p tool name v =
  let '(st, ord) := evict_loop (max_store_items p) (<[(tool, name) := v]> (_store p))
                               (_order p ++ [(tool, name)]) in
  set_store p st ord.
Proof. reflexivity. Qed.

Lemma register_binding_capacity (p : processor) (tool : pystr) (v : value) (n : option pystr)
    (ms : Z) (h : pystr) :
  max_store_items (register_binding p tool v n ms h).1 = max_store_items p.
Proof.
  unfold register_binding, _evict_if_necessary; cbn.
  destruct (evict_loop _ _ _). reflexivity.
Qed.

(** The number of live bindings never exceeds [max_store_items]: after any
    sequence of registrations on a new processor the store holds at most
    [max_store_items] bindings. *)
Theorem store_size_bounded (c k m : nat) (calls : list (pystr * value * option pystr * Z * pystr)) :
  (size (_store (register_calls (new_processor c k m) calls)) <= c)%nat.
Proof.
  unfold register_calls.
  assert (H : forall p, store_inv p -> max_store_items p = c ->
    store_inv (fold_left (fun p '(tool, v, n, ms, h) => (register_binding p tool v n ms h).1) calls p) /\
    max_store_items (fold_left (fun p '(tool, v, n, ms, h) => (register_binding p tool v n ms h).1) calls p) = c).
  { induction calls as [|[[[[tool v] n] ms] h] rest IH]; intros p Hi Hc; cbn [fold_left].
    - split; assumption.
    - apply IH; [apply store_inv_register; exact Hi|rewrite register_binding_capacity; exact Hc]. }
  destruct (H (new_processor c k m) (store_inv_new c k m) eq_refl) as [Hi Hc].
  rewrite <- Hc at 2. apply store_inv_size. exact Hi.
Qed.

End BindingStore.

Section BindingStoreClaims.

(** C2 (evaluated at a failing input). At the default capacity 50:
    register [a], register [a] again, register 49 fresh names, then
    register [a] once more. Before the last call 49 bindings are live, so
    the last insertion does not go beyond the capacity; still it evicts a
    binding, and the one it evicts is [a], the binding just written, while
    [b1], written before it, survives. The stale first order entry of [a]
    is what the eviction pops. *)
Lemma fifo_eviction_drops_newest_binding :
  size (_store proc_before_last) = 49%nat /\
  get_binding proc_before_last (u "t") (u "a") = VNone /\
  size (_store proc_after_last) = 49%nat /\
  get_binding proc_after_last (u "t") (u "a") = VNone /\
  get_binding proc_after_last (u "t") (u "b1") = VInt 1.
Proof. vm_compute. repeat split. Qed.

(** C3 (evaluated at a failing input). At the default capacity, register
    [a], then 49 fresh names, then [register_binding("t", 2, "a")]: the
    call returns ["a"], but [get_binding("t", "a")] right after it gives
    [None], because the call's own eviction pops the first order entry of
    [a] and drops the binding just written. *)
Lemma register_then_get_loses_value :
  let '(p', n) := register_binding proc_full_with_a (u "t") (VInt 2) (Some (u "a")) 0 [] in
  n = u "a" /\ get_binding p' (u "t") n = VNone.
Proof. vm_compute. split; reflexivity. Qed.

(** C10. (1) Without eviction, registering a key stores the new value and
    appends one more order entry for the key, whether or not the key was
    already bound. (2) When the order list is full and its first entry is
    a key [k] that has a later entry too (it was registered again), the
    next registration evicts [k] from the store entirely, [k] still has an
    entry in the order list, and fewer bindings are live than the order
    list has entries. *)
Theorem reregistration_keeps_stale_order_entry :
  (forall (p : processor) (tool name : pystr) (v : value),
     (length (_order p) < max_store_items p)%nat ->
     _store (register_named p tool name v) !! (tool, name) = Some v /\
     _order (register_named p tool name v) = _order p ++ [(tool, name)]) /\
  (forall (p : processor) (k : key) (rest : list key) (tool name : pystr) (v : value),
     store_inv p -> _order p = k :: rest -> k ∈ rest ->
     length (_order p) = max_store_items p ->
     _store (register_named p tool name v) !! k = None /\
     k ∈ _order (register_named p tool name v) /\
     (size (_store (register_named p tool name v))
      < length (_order (register_named p tool name v)))%nat).
Proof.
  split.
  - intros p tool name v Hlt.
    rewrite register_named_eq, evict_loop_noop
      by (rewrite length_app; cbn [length]; lia).
    split; [apply lookup_insert_eq | reflexivity].
  - intros p k rest tool name v [Hd _] Ho Hin Hfull.
    rewrite Ho in Hfull, Hd. rewrite register_named_eq, Ho. cbn [app].
    rewrite evict_loop_one by (rewrite length_app; cbn [length] in *; lia).
    cbn [_store _order set_store].
    assert (Hk : k ∈ rest ++ [(tool, name)]) by (apply elem_of_app; left; exact Hin).
    split; [apply lookup_delete_eq|]. split; [exact Hk|].
    assert (Hdom : dom (delete k (<[(tool, name):=v]> (_store p)))
                   ⊆ (list_to_set (rest ++ [(tool, name)]) : gset key) ∖ {[k]}).
    { rewrite dom_delete_L, dom_insert_L, list_to_set_app_L.
      cbn in Hd. set_solver. }
    rewrite <- size_dom.
    pose proof (subseteq_size _ _ Hdom) as H1.
    rewrite size_difference in H1
      by (apply singleton_subseteq_l, elem_of_list_to_set; exact Hk).
    rewrite size_singleton in H1.
    pose proof (size_list_to_set_le (rest ++ [(tool, name)])) as H2.
    assert (H3 : (0 < size (list_to_set (rest ++ [(tool, name)]) : gset key))%nat).
    { apply Nat.neq_0_lt_0. intros H0. apply size_empty_inv in H0.
      assert (Hk' : k ∈ (list_to_set (rest ++ [(tool, name)]) : gset key))
        by (apply elem_of_list_to_set; exact Hk).
      rewrite H0 in Hk'. set_solver. }
    lia.
Qed.

Lemma reregistration_keeps_stale_order_entry_witness :
  (_store (register_named default_processor (u "t") (u "a") (VInt 1)) !! (u "t", u "a")
     = Some (VInt 1) /\
   _order (register_named default_processor (u "t") (u "a") (VInt 1))
     = _order default_processor ++ [(u "t", u "a")]) /\
  (_store (register_named proc_aa (u "t") (u "b") (VInt 2)) !! (u "t", u "a") = None /\
   (u "t", u "a") ∈ _order (register_named proc_aa (u "t") (u "b") (VInt 2)) /\
   (size (_store (register_named proc_aa (u "t") (u "b") (VInt 2)))
    < length (_order (register_named proc_aa (u "t") (u "b") (VInt 2))))%nat).
Proof.
  split.
  - apply (proj1 reregistration_keeps_stale_order_entry default_processor (u "t") (u "a") (VInt 1)).
    vm_compute. lia.
  - apply (proj2 reregistration_keeps_stale_order_entry proc_aa (u "t", u "a") [(u "t", u "a")]
             (u "t") (u "b") (VInt 2)).
    + split; [apply (bool_decide_unpack _); vm_compute; reflexivity|vm_compute; lia].
    + vm_compute. reflexivity.
    + apply (bool_decide_unpack _). vm_compute. reflexivity.
    + vm_compute. reflexivity.
Defined.

End BindingStoreClaims.

Section PlaceholderPattern.

Lemma eat_some (c : N) (s r : pystr) : eat c s = Some r <-> s = c :: r.
Proof.
  destruct s as [|d s]; cbn; [split; congruence|].
  destruct (N.eqb_spec d c); subst; split; intros H; try congruence; inversion H; congruence.
Qed.

Lemma span_spec (f : N -> bool) (s a b : pystr) :
  span f s = (a, b) ->
  s = a ++ b /\ Forall (fun c => f c = true) a /\
  match b with [] => True | c :: _ => f c = false end.
Proof.
  revert a b; induction s as [|c s IH]; intros a b H; cbn in H.
  - inversion H; subst. repeat split. constructor.
  - destruct (f c) eqn:Fc.
    + destruct (span f s) as [a' b'] eqn:E. inversion H; subst.
      destruct (IH _ _ eq_refl) as (-> & Ha & Hb). repeat split; auto.
    + inversion H; subst. repeat split; auto.
Qed.

Lemma span_stop (f : N -> bool) (a : pystr) (d : N) (y : pystr) :
  Forall (fun c => f c = true) a -> f d = false -> span f (a ++ d :: y) = (a, d :: y).
Proof.
  intros Ha Hd. induction Ha as [|c a Hc Ha IH]; cbn; [rewrite Hd; reflexivity|].
  rewrite Hc, IH. reflexivity.
Qed.

Ltac norm_app := repeat (progress cbn [app] || rewrite <- app_assoc).

Ltac eat_step H :=
  lazymatch type of H with
  | context [eat ?c ?s] =>
      let E := fresh "E" in
      destruct (eat c s) eqn:E; cbn in H; [apply eat_some in E | discriminate H]
  end.

Ltac span_step H :=
  lazymatch type of H with
  | context [span ?f ?s] =>
      let E := fresh "S" in
      destruct (span f s) eqn:E; apply span_spec in E
  end.

Lemma match_at_shape (s tool var lex r : pystr) :
  match_at s = Some (tool, var, lex, r) -> token_shape tool var lex /\ s = lex ++ r.
Proof.
  unfold match_at. intros H.
  eat_step H. span_step H. eat_step H. span_step H. eat_step H. span_step H.
  eat_step H. span_step H. eat_step H. span_step H. eat_step H. span_step H.
  eat_step H.
  repeat match goal with
         | Hs : _ = _ ++ _ /\ _ /\ _ |- _ => destruct Hs as (? & ? & ?)
         end.
  subst.
  repeat match goal with
         | H : match ?l with [] => _ | _ :: _ => _ end = _ |- _ =>
             destruct l; [discriminate H|]
         end.
  inversion H; subst. split.
  - do 4 eexists. split; [reflexivity|]. repeat split; eauto; discriminate.
  - unfold token_text. norm_app. reflexivity.
Qed.

Lemma match_at_of_shape (tool var lex r : pystr) :
  token_shape tool var lex -> match_at (lex ++ r) = Some (tool, var, lex, r).
Proof.
  intros (w1 & w2 & w3 & w4 & -> & H1 & H2 & H3 & H4 & Ht & Hv & Nt & Nv).
  unfold match_at, token_text. norm_app. cbn.
  rewrite (span_stop _ w1 34) by (exact H1 || reflexivity). cbn. norm_app.
  rewrite (span_stop _ tool 34) by (exact Ht || reflexivity). cbn. norm_app.
  rewrite (span_stop _ w2 58) by (exact H2 || reflexivity). cbn. norm_app.
  rewrite (span_stop _ w3 34) by (exact H3 || reflexivity). cbn. norm_app.
  rewrite (span_stop _ var 34) by (exact Hv || reflexivity). cbn. norm_app.
  rewrite (span_stop _ w4 125) by (exact H4 || reflexivity). cbn. norm_app.
  destruct tool as [|t0 ts]; [congruence|]. destruct var as [|v0 vs]; [congruence|].
  reflexivity.
Qed.

Lemma token_shape_head (tool var lex : pystr) :
  token_shape tool var lex -> exists tl, lex = 123 :: tl /\ ~ In 123 tl.
Proof.
  intros (w1 & w2 & w3 & w4 & -> & H1 & H2 & H3 & H4 & Ht & Hv & _ & _).
  unfold token_text. eexists. split; [reflexivity|].
  assert (no : forall (f : N -> bool) (l : pystr),
             Forall (fun c => f c = true) l -> f 123 = false -> ~ In 123 l).
  { intros f l F H0 Hin. rewrite List.Forall_forall in F. rewrite (F _ Hin) in H0.
    discriminate H0. }
  cbn [app]. intros Hin.
  repeat (rewrite in_app_iff in Hin; cbn [In] in Hin).
  decompose [or] Hin; clear Hin;
  repeat match goal with
         | H : @eq N _ _ |- _ => discriminate H
         | H : False |- _ => destruct H
         | H : In 123 ?l, F : Forall _ ?l |- _ => exact (no _ _ F eq_refl H)
         end.
Qed.

Lemma match_at_app (s w tool var lex r : pystr) :
  match_at s = Some (tool, var, lex, r) -> match_at (s ++ w) = Some (tool, var, lex, r ++ w).
Proof.
  intros H. apply match_at_shape in H as [Hs ->].
  rewrite <- app_assoc. apply match_at_of_shape. exact Hs.
Qed.

(** A match never runs into a following [{]: matching on [s ++ "{" ++ w]
    is matching on [s]. *)
Lemma match_at_brace (s w : pystr) :
  s <> [] ->
  match_at (s ++ 123 :: w) =
  match match_at s with
  | Some (tool, var, lex, r) => Some (tool, var, lex, r ++ 123 :: w)
  | None => None
  end.
Proof.
  intros Hne. destruct (match_at s) as [[[[tool var] lex] r]|] eqn:M.
  - apply match_at_app. exact M.
  - destruct (match_at (s ++ 123 :: w)) as [[[[tool var] lex] r]|] eqn:M2; [|reflexivity].
    exfalso. apply match_at_shape in M2 as [Hs Heq].
    symmetry in Heq. apply app_eq_inv in Heq as [(k & Hl & Hk)|(k & Hsk & _)].
    2:{ rewrite Hsk, (match_at_of_shape _ _ _ _ Hs) in M. discriminate M. }
    + destruct k as [|c k].
      * rewrite app_nil_r in Hl. subst lex.
        rewrite <- (app_nil_r s), (match_at_of_shape _ _ _ _ Hs) in M. discriminate M.
      * cbn in Hk. inversion Hk; subst c.
        destruct (token_shape_head _ _ _ Hs) as (tl & Htl & Hno).
        rewrite Htl in Hl. destruct s as [|s0 s']; [congruence|].
        cbn in Hl. inversion Hl; subst.
        apply Hno. apply in_or_app. right. left. reflexivity.
Qed.

End PlaceholderPattern.

Section Substitution.

Variable repl : pystr -> pystr -> pystr -> exc pystr.

Lemma match_at_shorter (s tool var lex r : pystr) :
  match_at s = Some (tool, var, lex, r) -> (length r < length s)%nat.
Proof.
  intros H. apply match_at_shape in H as [Hs ->].
  destruct (token_shape_head _ _ _ Hs) as (tl & -> & _).
  cbn. rewrite length_app. lia.
Qed.

Lemma pattern_sub_fuel (n m : nat) (s : pystr) :
  (length s <= n)%nat -> (length s <= m)%nat -> pattern_sub repl n s = pattern_sub repl m s.
Proof.
  revert m s; induction n as [|n IH]; intros m s Hn Hm.
  - destruct s; [|cbn in Hn; lia]. destruct m; reflexivity.
  - destruct m as [|m].
    + destruct s; [reflexivity|cbn in Hm; lia].
    + destruct s as [|c s']; [reflexivity|]. cbn [pattern_sub].
      destruct (match_at (c :: s')) as [[[[tool var] lex] r]|] eqn:M.
      * pose proof (match_at_shorter _ _ _ _ _ M). cbn [length] in *.
        rewrite (IH m r) by lia. reflexivity.
      * cbn [length] in *. rewrite (IH m s') by lia. reflexivity.
Qed.

Lemma sub_all_nil : sub_all repl [] = Ok [].
Proof. reflexivity. Qed.

Lemma sub_all_cons (c : N) (s' : pystr) :
  sub_all repl (c :: s') =
  match match_at (c :: s') with
  | Some (tool, var, lex, r) => let* x := repl tool var lex in let* y := sub_all repl r in Ok (x ++ y)
  | None => let* y := sub_all repl s' in Ok (c :: y)
  end.
Proof.
  unfold sub_all. cbn [length pattern_sub].
  destruct (match_at (c :: s')) as [[[[tool var] lex] r]|] eqn:M.
  - pose proof (match_at_shorter _ _ _ _ _ M). cbn [length] in *.
    rewrite (pattern_sub_fuel (length s') (length r) r) by lia. reflexivity.
  - reflexivity.
Qed.

(** The text before a [{] is substituted on its own. *)
Lemma sub_all_brace (s w : pystr) :
  sub_all repl (s ++ 123 :: w) =
  let* a := sub_all repl s in let* b := sub_all repl (123 :: w) in Ok (a ++ b).
Proof.
  remember (length s) as n eqn:Hn. revert s Hn.
  induction n as [n IH] using (well_founded_induction lt_wf). intros s Hn.
  destruct s as [|c s'].
  - rewrite sub_all_nil. cbn [app exc_bind].
    destruct (sub_all repl (123 :: w)); reflexivity.
  - change ((c :: s') ++ 123 :: w) with (c :: (s' ++ 123 :: w)).
    rewrite !(sub_all_cons c).
    change (c :: s' ++ 123 :: w) with ((c :: s') ++ 123 :: w).
    rewrite match_at_brace by discriminate.
    destruct (match_at (c :: s')) as [[[[tool var] lex] r]|] eqn:M.
    + pose proof (match_at_shorter _ _ _ _ _ M).
      rewrite (IH (length r)) by (subst n; auto).
      destruct (repl tool var lex); cbn [exc_bind]; [|reflexivity].
      destruct (sub_all repl r); cbn [exc_bind]; [|reflexivity].
      destruct (sub_all repl (123 :: w)); cbn [exc_bind]; [|reflexivity].
      rewrite app_assoc. reflexivity.
    + rewrite (IH (length s')) by (subst n; cbn [exc_bind]; auto).
      destruct (sub_all repl s'); cbn [exc_bind]; [|reflexivity].
      destruct (sub_all repl (123 :: w)); reflexivity.
Qed.

Lemma sub_all_ok :
  (forall tool var lex, exists r, repl tool var lex = Ok r) ->
  forall s, exists r, sub_all repl s = Ok r.
Proof.
  intros Hr s. remember (length s) as n eqn:Hn. revert s Hn.
  induction n as [n IH] using (well_founded_induction lt_wf). intros s Hn.
  destruct s as [|c s']; [exists []; reflexivity|].
  rewrite sub_all_cons.
  destruct (match_at (c :: s')) as [[[[tool var] lex] r]|] eqn:M.
  - pose proof (match_at_shorter _ _ _ _ _ M).
    destruct (Hr tool var lex) as [x ->].
    destruct (IH (length r) ltac:(subst n; auto) r eq_refl) as [y ->].
    eexists; reflexivity.
  - destruct (IH (length s') ltac:(subst n; cbn; auto) s' eq_refl) as [y ->].
    eexists; reflexivity.
Qed.

(** Where every match is replaced by its own text, substitution is the
    identity. *)
Lemma sub_all_id (t : pystr) :
  (forall pre s tool var lex rest, t = pre ++ s -> match_at s = Some (tool, var, lex, rest) ->
     repl tool var lex = Ok lex) ->
  sub_all repl t = Ok t.
Proof.
  intros Hinert. assert (Hsuf : forall s, (exists pre, t = pre ++ s) -> sub_all repl s = Ok s).
  { intros s. remember (length s) as n eqn:Hn. revert s Hn.
    induction n as [n IH] using (well_founded_induction lt_wf). intros s Hn [pre Hpre].
    destruct s as [|c s']; [reflexivity|].
    rewrite sub_all_cons.
    destruct (match_at (c :: s')) as [[[[tool var] lex] r]|] eqn:M.
    - pose proof (match_at_shorter _ _ _ _ _ M) as Hlt.
      rewrite (Hinert pre (c :: s') tool var lex r Hpre M). cbn.
      pose proof (match_at_shape _ _ _ _ _ M) as [_ Hs].
      rewrite (IH (length r)) by (subst n; auto; exists (pre ++ lex);
                                  rewrite Hpre, Hs, app_assoc; reflexivity).
      cbn. rewrite Hs. reflexivity.
    - rewrite (IH (length s')) by (subst n; cbn; auto; exists (pre ++ [c]);
                                   rewrite Hpre, <- app_assoc; reflexivity).
      reflexivity. }
  apply Hsuf. exists []. reflexivity.
Qed.

(** The output is the input cut into pieces, each kept as is or a whole
    match replaced by [repl]. *)
Lemma sub_all_pieces (Q : pystr -> pystr -> Prop) :
  (forall tool var lex x, repl tool var lex = Ok x -> x = lex \/ Q tool var) ->
  forall s o, sub_all repl s = Ok o ->
  exists pieces : list (pystr * pystr),
    s = concat (map fst pieces) /\ o = concat (map snd pieces) /\
    Forall (fun pr => pr.1 = pr.2 \/ exists tool var, token_shape tool var pr.1 /\ Q tool var)
      pieces.
Proof.
  intros Hrepl s. remember (length s) as n eqn:Hn. revert s Hn.
  induction n as [n IH] using (well_founded_induction lt_wf). intros s Hn o H.
  destruct s as [|c s'].
  - rewrite sub_all_nil in H. injection H as <-. exists []. repeat split; constructor.
  - rewrite sub_all_cons in H.
    destruct (match_at (c :: s')) as [[[[tool var] lex] r]|] eqn:M.
    + pose proof (match_at_shorter _ _ _ _ _ M) as Hlt.
      destruct (match_at_shape _ _ _ _ _ M) as [Hsh Hs].
      destruct (repl tool var lex) as [x|e] eqn:R; cbn [exc_bind] in H; [|discriminate].
      destruct (sub_all repl r) as [y|e] eqn:S; cbn [exc_bind] in H; [|discriminate].
      injection H as <-.
      destruct (IH (length r) ltac:(subst n; auto) r eq_refl y S) as (ps & Hr & Hy & Hf).
      exists ((lex, x) :: ps). cbn [map concat fst snd].
      split; [rewrite Hs, Hr; reflexivity|]. split; [rewrite Hy; reflexivity|].
      constructor; [|exact Hf]. cbn.
      destruct (Hrepl _ _ _ _ R) as [->|Hq]; [left; reflexivity|right; eauto].
    + destruct (sub_all repl s') as [y|e] eqn:S; cbn [exc_bind] in H; [|discriminate].
      injection H as <-.
      destruct (IH (length s') ltac:(subst n; cbn; auto) s' eq_refl y S) as (ps & Hr & Hy & Hf).
      exists (([c], [c]) :: ps). cbn [map concat fst snd app].
      split; [rewrite Hr; reflexivity|]. split; [rewrite Hy; reflexivity|].
      constructor; [left; reflexivity|exact Hf].
Qed.

End Substitution.

Section ResolveClaims.

Variable p : processor.
Variable millis : Z.

Lemma resolve_some (t : pystr) :
  resolve_placeholders_in_text p millis (Some t) = sub_all (replacer p millis) t.
Proof. destruct t; reflexivity. Qed.

Lemma replacer_ok (tool var lex : pystr) : exists r, replacer p millis tool var lex = Ok r.
Proof. unfold replacer. repeat case_match; eauto. Qed.

Lemma replacer_unbound (tool var lex : pystr) :
  get_binding p tool var = VNone -> replacer p millis tool var lex = Ok lex.
Proof. intros G. unfold replacer. rewrite G. case_match; reflexivity. Qed.

Lemma replacer_changes (tool var lex x : pystr) :
  replacer p millis tool var lex = Ok x -> x = lex \/ get_binding p tool var <> VNone.
Proof.
  intros H. destruct (get_binding p tool var) eqn:G; [|right; discriminate ..].
  left. rewrite replacer_unbound in H by exact G. congruence.
Qed.

(** Claim C4: [resolve_placeholders_in_text] never raises; its output is
    the input cut into pieces, each kept verbatim or a whole placeholder
    token whose binding exists replaced; a well-formed token whose binding is
    absent stays verbatim between independently resolved surroundings; and
    a text in which no match has a binding (in particular a text with no
    match at all) is returned unchanged. *)
Theorem resolve_keeps_unbound_tokens :
  (forall text, exists out, resolve_placeholders_in_text p millis text = Ok out) /\
  (forall t out, resolve_placeholders_in_text p millis (Some t) = Ok out ->
     exists pieces : list (pystr * pystr),
       t = concat (map fst pieces) /\ out = concat (map snd pieces) /\
       Forall (fun pr => pr.1 = pr.2 \/
                 exists tool var, token_shape tool var pr.1 /\ get_binding p tool var <> VNone)
         pieces) /\
  (forall pre tok post tool var a b,
     match_at tok = Some (tool, var, tok, []) ->
     get_binding p tool var = VNone ->
     resolve_placeholders_in_text p millis (Some pre) = Ok a ->
     resolve_placeholders_in_text p millis (Some post) = Ok b ->
     resolve_placeholders_in_text p millis (Some (pre ++ tok ++ post)) = Ok (a ++ tok ++ b)) /\
  (forall t,
     (forall pre s tool var lex rest, t = pre ++ s -> match_at s = Some (tool, var, lex, rest) ->
        get_binding p tool var = VNone) ->
     resolve_placeholders_in_text p millis (Some t) = Ok t).
Proof.
  split; [|split; [|split]].
  - intros [t|]; [|exists []; reflexivity].
    rewrite resolve_some. apply sub_all_ok. apply replacer_ok.
  - intros t out H. rewrite resolve_some in H.
    exact (sub_all_pieces _ _ replacer_changes t out H).
  - intros pre tok post tool var a b M G Ha Hb.
    rewrite resolve_some in *.
    destruct (match_at_shape _ _ _ _ _ M) as [Hs _].
    destruct (token_shape_head _ _ _ Hs) as (tl & -> & _).
    cbn [app] in *.
    rewrite sub_all_brace, Ha. cbn [exc_bind].
    pose proof (match_at_app _ post _ _ _ _ M) as M2. cbn [app] in M2.
    rewrite sub_all_cons, M2, replacer_unbound by exact G. cbn [exc_bind].
    rewrite Hb. reflexivity.
  - intros t H. rewrite resolve_some. apply sub_all_id.
    intros pre s tool var lex rest Ht M. apply replacer_unbound. eapply H; eauto.
Qed.

End ResolveClaims.

Lemma resolve_keeps_unbound_tokens_witness :
  resolve_placeholders_in_text default_processor 0
    (Some (u "x " ++ placeholder (u "sql") (u "v1") ++ u " y")) =
    Ok (u "x " ++ placeholder (u "sql") (u "v1") ++ u " y") /\
  resolve_placeholders_in_text default_processor 0 (Some (u "a {} b")) = Ok (u "a {} b").
Proof.
  split.
  - apply (proj1 (proj2 (proj2 (resolve_keeps_unbound_tokens default_processor 0)))
             (u "x ") (placeholder (u "sql") (u "v1")) (u " y") (u "sql") (u "v1") (u "x ") (u " y"));
      vm_compute; reflexivity.
  - apply (proj2 (proj2 (proj2 (resolve_keeps_unbound_tokens default_processor 0)))).
    intros pre s tool var lex rest _ _. vm_compute. reflexivity.
Defined.

Section SqlPlaceholder.

(** Claim C5 (counterexample): under the tool name ["sql"] the name is
    [sql_1700000000000_01234567], but resolving its placeholder yields the
    JSON text [[{"x": 1}]], which has no markup at all; on the processor of
    the application, where ["sql"] is not a known tool, the placeholder is
    even left as it is. *)
Lemma sql_placeholder_gives_json :
  register_then_resolve default_processor (u "sql") sql_rows =
    (u "sql_1700000000000_01234567", Ok (q "[{`x`: 1}]")) /\
  register_then_resolve app_processor (u "sql") sql_rows =
    (u "sql_1700000000000_01234567",
     Ok (placeholder (u "sql") (u "sql_1700000000000_01234567"))) /\
  str_contains (u "<") (q "[{`x`: 1}]") = false.
Proof. split; [|split]; vm_compute; reflexivity. Qed.

End SqlPlaceholder.

Section PreviewBounds.

Lemma firstn_cut_list (n : nat) (l : list value) :
  cut_value n 0 (VList l) (VList (firstn n l)).
Proof.
  eexists; split; [reflexivity|]. split.
  - exists (skipn n l). symmetry. apply firstn_skipn.
  - apply length_firstn.
Qed.

Lemma firstn_cut_str (n : nat) (s : pystr) :
  cut_value 0 n (VStr s) (VStr (firstn n s)).
Proof.
  eexists; split; [reflexivity|]. split.
  - exists (skipn n s). symmetry. apply firstn_skipn.
  - apply length_firstn.
Qed.

(** Claim C6 (counterexample): a list holding one string of 2001
    characters is its own preview, so the payload carries all 2001
    characters; likewise a mapping nested in a mapping keeps all its
    entries. *)
Lemma preview_keeps_nested_long_string :
  _make_preview default_processor (VList [VStr long_text]) = VList [VStr long_text] /\
  (preview_max_chars default_processor < length long_text)%nat /\
  (exists out,
     build_lightweight_tool_payload default_processor (u "sql") (u "v")
       (VList [VStr long_text]) true = Ok out /\
     str_contains (q "`preview`: [`" ++ long_text ++ q "`]") out = true) /\
  _make_preview default_processor
    (VDict [(u "d", VDict (map (fun i => (py_str_int (Z.of_nat i), VInt 0)) (seq 0 21)))]) =
    VDict [(u "d", VDict (map (fun i => (py_str_int (Z.of_nat i), VInt 0)) (seq 0 21)))].
Proof.
  split; [reflexivity|]. split; [vm_compute; reflexivity|]. split.
  - eexists; split; [vm_compute; reflexivity|]. vm_compute. reflexivity.
  - vm_compute. reflexivity.
Qed.

(** Claim C6 (amended): the preview is cut at the top level only. A string
    keeps a prefix of at most [preview_max_chars] characters and a list a
    prefix of at most [preview_max_items] items; a mapping keeps its first 20
    entries, each list value cut to [preview_max_items] items and each string
    value to [preview_max_chars] characters, every other value whole; any
    other value is its own preview. Elements inside the kept items are never
    cut. *)
Theorem make_preview_shallow (p : processor) (v : value) :
  match v with
  | VStr _ | VList _ =>
      cut_value (preview_max_items p) (preview_max_chars p) v (_make_preview p v)
  | VDict d =>
      exists d', _make_preview p (VDict d) = VDict d' /\
        length d' = Nat.min 20 (length d) /\
        Forall2 (fun kv kv' => kv'.1 = kv.1 /\
                   cut_value (preview_max_items p) (preview_max_chars p) kv.2 kv'.2)
          (firstn 20 d) d'
  | _ => _make_preview p v = v
  end.
Proof.
  destruct v as [| | |s|l|d|tn r]; try reflexivity.
  - apply (firstn_cut_str (preview_max_chars p) s).
  - apply (firstn_cut_list (preview_max_items p) l).
  - eexists; split; [reflexivity|]. split.
    + rewrite length_map, length_firstn. reflexivity.
    + induction (firstn 20 d) as [|[k x] rest IH]; cbn; constructor; [|exact IH].
      split; [reflexivity|].
      destruct x as [| | |s|l|d'|tn r]; cbn; try reflexivity.
      * apply (firstn_cut_str (preview_max_chars p) s).
      * destruct (firstn_cut_list (Nat.min (length l) (preview_max_items p)) l)
          as (l' & E & Hk & Hl).
        exists l'. split; [exact E|]. split; [exact Hk|]. rewrite Hl. lia.
Qed.

End PreviewBounds.

Section ToolDispatch.

Lemma json_dumps_error (msg : pystr) :
  json_dumps (VDict [(u "error", VStr msg)]) = Ok (error_payload msg).
Proof. reflexivity. Qed.

(** Claim C8 (counterexample): the result of dispatching the unregistered
    name [t] is a pair [(t, text)] with no flag, and a registered handler
    that succeeds with the same text gives the same pair, so no function of
    the result tells the two apart. *)
Lemma unknown_tool_result_has_no_flag :
  execute_tool empty_registry (u "t") (VDict []) (VDict []) =
    Ok (u "t", error_payload (unknown_tool_message (u "t"))) /\
  execute_tool registry_with_echo (u "t") (VDict []) (VDict []) =
    execute_tool empty_registry (u "t") (VDict []) (VDict []) /\
  (forall ok : exc (pystr * pystr) -> bool,
     ok (execute_tool registry_with_echo (u "t") (VDict []) (VDict [])) =
     ok (execute_tool empty_registry (u "t") (VDict []) (VDict []))).
Proof.
  assert (E : execute_tool registry_with_echo (u "t") (VDict []) (VDict []) =
              execute_tool empty_registry (u "t") (VDict []) (VDict [])) by reflexivity.
  split; [reflexivity|]. split; [exact E|]. intros ok. rewrite E. reflexivity.
Qed.

(** Claim C8 (amended): dispatching a name with no handler does not raise;
    it returns the pair of the name and the JSON text
    [{"error": "未知的工具：<name>"}], with no success flag: for every
    registry whose handler for that name succeeds with the same text, the
    result of dispatching is identical. *)
Theorem execute_unknown_tool (r : tool_registry) (tool_name : pystr) (args context : value) :
  get_handler r tool_name = None ->
  execute_tool r tool_name args context =
    Ok (tool_name, error_payload (unknown_tool_message tool_name)) /\
  (forall (r' : tool_registry) (handler : tool_handler),
     get_handler r' tool_name = Some handler ->
     execute handler args context = Ok (true, error_payload (unknown_tool_message tool_name)) ->
     execute_tool r' tool_name args context = execute_tool r tool_name args context).
Proof.
  intros H.
  assert (E : execute_tool r tool_name args context =
                Ok (tool_name, error_payload (unknown_tool_message tool_name))).
  { unfold execute_tool. rewrite H. reflexivity. }
  split; [exact E|]. intros r' handler Hh He.
  rewrite E. unfold execute_tool. rewrite Hh, He. reflexivity.
Qed.

Lemma execute_unknown_tool_witness :
  get_handler empty_registry (u "t") = None /\
  execute_tool empty_registry (u "t") (VDict []) (VDict []) =
    Ok (u "t", error_payload (unknown_tool_message (u "t"))) /\
  execute_tool registry_with_echo (u "t") (VDict []) (VDict []) =
    execute_tool empty_registry (u "t") (VDict []) (VDict []).
Proof.
  assert (H : get_handler empty_registry (u "t") = None) by reflexivity.
  destruct (execute_unknown_tool empty_registry (u "t") (VDict []) (VDict []) H) as [E1 E2].
  split; [exact H|]. split; [exact E1|].
  apply (E2 registry_with_echo
           (const_handler (u "t") true (error_payload (unknown_tool_message (u "t")))));
    vm_compute; reflexivity.
Defined.

(** Claim C9: [execute_tool] returns a pair [(tool_name, result)] for every
    registry, name, arguments and context, and never raises; when the
    handler returns [(success, res)] the result is [res] whatever [success]
    is, and when the handler raises [e] the result is the JSON text
    [{"error": "工具执行失败：<str(e)>"}]. *)
Theorem execute_tool_total (r : tool_registry) (tool_name : pystr) (args context : value) :
  exists result,
    execute_tool r tool_name args context = Ok (tool_name, result) /\
    (forall handler success res,
       get_handler r tool_name = Some handler ->
       execute handler args context = Ok (success, res) -> result = res) /\
    (forall handler e,
       get_handler r tool_name = Some handler ->
       execute handler args context = Raise e ->
       result = error_payload (u "工具执行失败：" ++ exc_msg e)).
Proof.
  unfold execute_tool. destruct (get_handler r tool_name) as [h|] eqn:G.
  - destruct (execute h args context) as [[b res0]|e0] eqn:X.
    + exists res0. split; [reflexivity|]. split.
      * intros h' b' res' H' X'. injection H' as <-. rewrite X in X'. congruence.
      * intros h' e H' X'. injection H' as <-. congruence.
    + exists (error_payload (u "工具执行失败：" ++ exc_msg e0)). split; [reflexivity|]. split.
      * intros h' b' res' H' X'. injection H' as <-. congruence.
      * intros h' e H' X'. injection H' as <-. rewrite X in X'. congruence.
  - eexists. split; [reflexivity|]. split; intros; discriminate.
Qed.

Lemma execute_tool_total_witness :
  execute_tool (register empty_registry (const_handler (u "sql") false (u "r"))) (u "sql")
    (VDict []) (VDict []) = Ok (u "sql", u "r").
Proof.
  destruct (execute_tool_total (register empty_registry (const_handler (u "sql") false (u "r")))
              (u "sql") (VDict []) (VDict [])) as (res & E & Hok & _).
  rewrite E. f_equal. f_equal.
  apply (Hok (const_handler (u "sql") false (u "r")) false); vm_compute; reflexivity.
Defined.

End ToolDispatch.

Section ToolCallLoopClaims.

Context {St : Type}.
Variable gateway : nat -> request -> exc llm_message.
Variable _execute_tool_call : St -> tool_call -> St * exc (pystr * pystr).
Variable tools : list value.
Variable tool_choice : option pystr.
Variable max_tool_rounds : Z.

Lemma tool_rounds_exhaust :
  (forall n req, req_tools req = Some tools ->
     exists message, gateway n req = Ok message /\ msg_tool_calls message <> []) ->
  forall fuel current_round st msgs sent,
    (Z.to_nat (max_tool_rounds - current_round) <= fuel)%nat ->
    exists st' msgs' reqs,
      tool_rounds gateway _execute_tool_call tools tool_choice max_tool_rounds
        fuel current_round st msgs sent = Ok (st', msgs', sent ++ reqs, None) /\
      length reqs = Z.to_nat (max_tool_rounds - current_round) /\
      Forall (fun req => req_tools req = Some tools) reqs.
Proof.
  intros Hgw fuel. induction fuel as [|fuel IH]; intros round st msgs sent Hf.
  - exists st, msgs, []. rewrite app_nil_r. split; [reflexivity|]. split; [cbn; lia|constructor].
  - cbn [tool_rounds].
    destruct (Z.ltb_spec round max_tool_rounds) as [Hlt|Hge].
    + destruct (Hgw (length sent) (Request msgs (Some tools) tool_choice) eq_refl)
        as (m & Hm & Hc).
      rewrite Hm. cbn [exc_bind].
      destruct (msg_tool_calls m) as [|c cs] eqn:Hcs; [congruence|].
      destruct (run_tool_calls _execute_tool_call st
                  (msgs ++ [ChatMessage (u "assistant") None (c :: cs) None]) (c :: cs))
        as [st1 msgs1].
      destruct (IH (round + 1)%Z st1 msgs1 (sent ++ [Request msgs (Some tools) tool_choice])
                  ltac:(lia)) as (st' & msgs' & reqs & E & Hl & Hf').
      exists st', msgs', (Request msgs (Some tools) tool_choice :: reqs).
      rewrite E, <- app_assoc. split; [reflexivity|]. split.
      * cbn [length]. rewrite Hl. lia.
      * constructor; [reflexivity|exact Hf'].
    + exists st, msgs, []. rewrite app_nil_r. split; [reflexivity|]. split; [cbn; lia|constructor].
Qed.

(** Claim C1: if the gateway asks for a tool call on every request with
    tools, [_handle_chat_with_tools] returns a message without raising after
    exactly [max(max_tool_rounds, 0) + 1] gateway calls: all but the last
    with the tools, the last with tools and tool choice disabled and the
    final-answer directive as its last message; the returned message is the
    answer to that last call, or, if it raises [e], the synthetic message
    carrying [str(e)]. *)
Theorem tool_loop_terminates_with_final_call :
  (forall n req, req_tools req = Some tools ->
     exists message, gateway n req = Ok message /\ msg_tool_calls message <> []) ->
  forall st messages,
  exists st' result rounds msgs final,
    _handle_chat_with_tools gateway _execute_tool_call tools tool_choice max_tool_rounds
      st messages = Ok (st', result, rounds ++ [final]) /\
    length rounds = Z.to_nat max_tool_rounds /\
    Forall (fun req => req_tools req = Some tools) rounds /\
    final = Request (msgs ++ [ChatMessage (u "user") (Some final_directive) [] None]) None None /\
    (forall final_response,
       gateway (Z.to_nat max_tool_rounds) final = Ok final_response -> result = final_response) /\
    (forall e,
       gateway (Z.to_nat max_tool_rounds) final = Raise e ->
       result = mock_response e /\
       msg_content result = Some (u "达到最大工具调用轮数，且获取最终响应时出错: " ++ exc_msg e)).
Proof.
  intros Hgw st messages.
  destruct (tool_rounds_exhaust Hgw (Z.to_nat max_tool_rounds) 0 st messages [] ltac:(lia))
    as (st' & msgs & reqs & E & Hl & Hf).
  unfold _handle_chat_with_tools. rewrite E. cbn [exc_bind app].
  rewrite Z.sub_0_r in Hl. rewrite Hl.
  set (final := Request (msgs ++ [ChatMessage (u "user") (Some final_directive) [] None]) None None).
  destruct (gateway (Z.to_nat max_tool_rounds) final) as [r|e] eqn:G.
  - exists st', r, reqs, msgs, final.
    split; [reflexivity|]. split; [exact Hl|]. split; [exact Hf|]. split; [reflexivity|].
    split; [intros r' H; congruence|intros e H; congruence].
  - exists st', (mock_response e), reqs, msgs, final.
    split; [reflexivity|]. split; [exact Hl|]. split; [exact Hf|]. split; [reflexivity|].
    split; [intros r' H; congruence|intros e' H; rewrite H in G; injection G as <-; split; reflexivity].
Qed.

End ToolCallLoopClaims.

Lemma tool_loop_terminates_with_final_call_witness :
  exists st' result rounds msgs final,
    _handle_chat_with_tools always_calling_gateway counting_tool_call [] None 10
      0%nat [ChatMessage (u "user") (Some (u "hi")) [] None] = Ok (st', result, rounds ++ [final]) /\
    length rounds = 10%nat /\
    Forall (fun req => req_tools req = Some []) rounds /\
    final = Request (msgs ++ [ChatMessage (u "user") (Some final_directive) [] None]) None None /\
    (forall final_response,
       always_calling_gateway 10 final = Ok final_response -> result = final_response) /\
    (forall e,
       always_calling_gateway 10 final = Raise e ->
       result = mock_response e /\
       msg_content result = Some (u "达到最大工具调用轮数，且获取最终响应时出错: " ++ exc_msg e)).
Proof.
  apply (tool_loop_terminates_with_final_call always_calling_gateway counting_tool_call [] None 10).
  intros n req H. unfold always_calling_gateway. rewrite H.
  eexists. split; [reflexivity|]. cbn. discriminate.
Defined.

Section SlidePipeline.

(** Claim C7: for units [A, B, C] where only B's prompt cannot be built
    (its key point is the number [1]), the batch is aborted: the exception
    raised before the [try] of [_generate_slide_content] reaches the
    [await], and [generate_ppt_async] returns its failure text, with no
    slide for A, B or C. *)
Theorem unit_failure_aborts_batch :
  slide_prologue unit_B =
    Raise (type_error (u "sequence item 0: expected str instance, int found")) /\
  generate_ppt_async echo_attempt abc_outline (u "2026年10月17日") =
    PptFailed (u "❌ PPT生成失败：sequence item 0: expected str instance, int found").
Proof. split; vm_compute; reflexivity. Qed.

End SlidePipeline.

Section Decimal.

Lemma utf8_dec_ascii (bs : list N) : Forall (fun b => b < 128) bs -> utf8_dec bs = bs.
Proof.
  induction 1 as [|b bs Hb _ IH]; [reflexivity|].
  cbn. replace (b <? 128) with true by (symmetry; apply N.ltb_lt; exact Hb). rewrite IH. reflexivity.
Qed.

Lemma uint_chars (d : Decimal.uint) :
  Forall (fun a => 48 <= N_of_ascii a <= 57) (list_ascii_of_string (NilZero.string_of_uint d)).
Proof.
  assert (H : forall d, Forall (fun a => 48 <= N_of_ascii a <= 57)
                          (list_ascii_of_string (NilEmpty.string_of_uint d))).
  { clear d; intros d; induction d; cbn; constructor; try assumption; split; apply N.leb_le; reflexivity. }
  destruct d; [cbn; constructor; [split; apply N.leb_le; reflexivity|constructor]|apply H..].
Qed.

Lemma u_uint (d : Decimal.uint) :
  u (NilZero.string_of_uint d) = map N_of_ascii (list_ascii_of_string (NilZero.string_of_uint d)).
Proof.
  unfold u. apply utf8_dec_ascii. apply Forall_map.
  eapply List.Forall_impl; [|apply uint_chars]. cbn. intros a [_ H]. lia.
Qed.

Lemma to_uint_not_nil (n : N) : N.to_uint n <> Decimal.Nil.
Proof.
  intros H. pose proof (DecimalN.Unsigned.of_to n) as E. rewrite H in E. cbn in E.
  subst n. discriminate H.
Qed.

Lemma py_str_int_of_N (n : N) :
  py_str_int (Z.of_N n) = u (NilZero.string_of_uint (N.to_uint n)).
Proof. destruct n; reflexivity. Qed.

Lemma py_str_int_digits (n : N) : Forall (fun c => 48 <= c <= 57) (py_str_int (Z.of_N n)).
Proof. rewrite py_str_int_of_N, u_uint. apply Forall_map, uint_chars. Qed.

Lemma py_str_int_nonempty (n : N) : py_str_int (Z.of_N n) <> [].
Proof.
  rewrite py_str_int_of_N, u_uint. pose proof (to_uint_not_nil n).
  destruct (N.to_uint n); [congruence|discriminate..].
Qed.

Lemma py_str_int_N_inj (a b : N) : py_str_int (Z.of_N a) = py_str_int (Z.of_N b) -> a = b.
Proof.
  rewrite !py_str_int_of_N, !u_uint. intros H.
  apply (f_equal (map ascii_of_N)) in H. rewrite !map_map in H.
  rewrite !(map_ext (fun x => ascii_of_N (N_of_ascii x)) id ascii_N_embedding), !map_id in H.
  apply (f_equal string_of_list_ascii) in H. rewrite !string_of_list_ascii_of_string in H.
  apply (f_equal NilZero.uint_of_string) in H.
  rewrite !NilZero.usu in H by apply to_uint_not_nil. injection H as H.
  rewrite <- (DecimalN.Unsigned.of_to a), <- (DecimalN.Unsigned.of_to b), H. reflexivity.
Qed.

Lemma py_str_int_nat_inj (a b : nat) : py_str_int (Z.of_nat a) = py_str_int (Z.of_nat b) -> a = b.
Proof.
  rewrite <- !nat_N_Z. intros H. apply py_str_int_N_inj in H. lia.
Qed.

Lemma py_str_int_nat_digits (k : nat) : Forall (fun c => 48 <= c <= 57) (py_str_int (Z.of_nat k)).
Proof. rewrite <- nat_N_Z. apply py_str_int_digits. Qed.

Lemma py_str_int_nat_nonempty (k : nat) : py_str_int (Z.of_nat k) <> [].
Proof. rewrite <- nat_N_Z. apply py_str_int_nonempty. Qed.

End Decimal.

Section ColumnNames.

Lemma clean_from_true_false (s : pystr) : clean_from true s = true -> clean_from false s = true.
Proof. destruct s as [|c r]; cbn; [discriminate|]. destruct (is_name_char c); [auto|]. rewrite andb_false_r. discriminate. Qed.

Lemma clean_from_app (b : bool) (x y : pystr) :
  clean_from b x = true -> clean_from b (x ++ y) = clean_from false y.
Proof.
  revert b. induction x as [|c r IH]; intros b H; cbn in *.
  - destruct b; [discriminate|reflexivity].
  - destruct (is_name_char c); [auto|].
    destruct ((c =? 95) && negb b); [cbn in *; auto|discriminate].
Qed.

Lemma sub_nonname_runs_loose (s : pystr) (b : bool) :
  clean_from b (sub_nonname_runs b s ++ [97]) = true.
Proof.
  revert b. induction s as [|c r IH]; intros b; [reflexivity|]. cbn.
  destruct (is_name_char c) eqn:E; cbn; [rewrite E; apply IH|].
  destruct b; [apply IH|]. cbn. apply IH.
Qed.

Lemma lstrip_loose (x : pystr) :
  clean_from false (x ++ [97]) = true -> clean_from true (lstrip_by (N.eqb 95) x ++ [97]) = true.
Proof.
  induction x as [|c r IH]; intros H; [reflexivity|]. cbn [lstrip_by].
  destruct (N.eqb_spec 95 c) as [<-|Hc].
  - apply IH, clean_from_true_false. exact H.
  - cbn [app clean_from] in *. destruct (is_name_char c); [exact H|].
    apply andb_true_iff in H as [H _]. apply andb_true_iff in H as [H _].
    apply N.eqb_eq in H. congruence.
Qed.

Lemma rstrip_loose (y : pystr) (b : bool) :
  clean_from b (y ++ [97]) = true -> (b = false \/ rstrip_by (N.eqb 95) y <> []) ->
  clean_from b (rstrip_by (N.eqb 95) y) = true.
Proof.
  revert b. induction y as [|c r IH]; intros b H Hne; cbn [rstrip_by app clean_from] in *.
  - destruct Hne as [->|Hne]; [reflexivity|congruence].
  - destruct (is_name_char c) eqn:E.
    + assert (c <> 95) by (intros ->; discriminate E).
      destruct (rstrip_by (N.eqb 95) r) as [|d r'] eqn:R.
      * replace (95 =? c) with false by (symmetry; apply N.eqb_neq; congruence).
        cbn [clean_from]. rewrite E. reflexivity.
      * change (clean_from b (c :: d :: r')) with
          (if is_name_char c then clean_from false (d :: r')
           else (c =? 95) && negb b && clean_from true (d :: r')).
        rewrite E. apply IH; [exact H|]. right. discriminate.
    + apply andb_true_iff in H as [H1 H]. apply andb_true_iff in H1 as [Hc Hb].
      apply N.eqb_eq in Hc. subst c. destruct b; [discriminate|].
      destruct (rstrip_by (N.eqb 95) r) as [|d r'] eqn:R; [reflexivity|].
      change (clean_from false (95 :: d :: r')) with
        (if is_name_char 95 then clean_from false (d :: r')
         else (95 =? 95) && negb false && clean_from true (d :: r')).
      rewrite E. apply IH; [exact H|]. right. discriminate.
Qed.

Lemma clean_name_clean (col : pystr) : is_clean_column_name (clean_name col) = true.
Proof.
  unfold clean_name, strip_by.
  pose proof (lstrip_loose _ (sub_nonname_runs_loose (py_strip col) false)) as L.
  destruct (rstrip_by (N.eqb 95) (lstrip_by (N.eqb 95) (sub_nonname_runs false (py_strip col))))
    as [|c r] eqn:R.
  - vm_compute. reflexivity.
  - unfold is_clean_column_name. rewrite <- R. apply rstrip_loose; [exact L|].
    right. rewrite R. discriminate.
Qed.

Lemma digits_clean (ds : pystr) :
  Forall (fun c => 48 <= c <= 57) ds -> clean_from false ds = true.
Proof.
  induction 1 as [|c r Hc _ IH]; [reflexivity|]. cbn.
  replace (is_name_char c) with true; [exact IH|].
  unfold is_name_char. symmetry. apply orb_true_iff. right.
  apply andb_true_iff. split; apply N.leb_le; lia.
Qed.

Lemma candidate_clean (original_col : pystr) (k : nat) :
  is_clean_column_name original_col = true -> is_clean_column_name (candidate original_col k) = true.
Proof.
  unfold is_clean_column_name. intros H. destruct k as [|k]; [exact H|]. cbn [candidate].
  rewrite (clean_from_app _ _ _ H). cbn.
  pose proof (py_str_int_nat_digits (S k)) as D. pose proof (py_str_int_nat_nonempty (S k)) as NE.
  destruct (py_str_int (Z.of_nat (S k))) as [|d r] eqn:E; [congruence|].
  inversion D as [|? ? Hd Hr]; subst. cbn.
  replace (is_name_char d) with true; [apply digits_clean; exact Hr|].
  unfold is_name_char. symmetry. apply orb_true_iff. right.
  apply andb_true_iff. split; apply N.leb_le; lia.
Qed.

Lemma candidate_inj (original_col : pystr) (j k : nat) :
  candidate original_col j = candidate original_col k -> j = k.
Proof.
  destruct j as [|j], k as [|k]; cbn [candidate]; intros H; [reflexivity| | |].
  - apply (f_equal (@length N)) in H. rewrite !length_app in H. cbn in H. lia.
  - apply (f_equal (@length N)) in H. rewrite !length_app in H. cbn in H. lia.
  - apply app_inv_head, (app_inv_head [95]), py_str_int_nat_inj in H. exact H.
Qed.

Lemma find_free_candidate (fuel : nat) (_seen : gset pystr) (original_col : pystr) (k : nat) :
  exists j, find_free fuel _seen original_col (S k) (candidate original_col k)
            = candidate original_col j.
Proof.
  revert k. induction fuel as [|fuel IH]; intros k; cbn [find_free]; [eauto|].
  case_bool_decide; [|eauto]. apply (IH (S k)).
Qed.

Lemma find_free_fresh (fuel : nat) (_seen : gset pystr) (original_col : pystr) (k : nat) :
  (forall j, (j < k)%nat -> candidate original_col j ∈ _seen) ->
  (size _seen < k + fuel)%nat ->
  find_free fuel _seen original_col (S k) (candidate original_col k) ∉ _seen.
Proof.
  revert k. induction fuel as [|fuel IH]; intros k Hin Hsize; cbn [find_free].
  - exfalso.
    set (X := list_to_set (candidate original_col <$> seq 0 k) : gset pystr).
    assert (HX : X ⊆ _seen).
    { intros x Hx. apply elem_of_list_to_set, list_elem_of_fmap in Hx as (j & -> & Hj).
      apply elem_of_seq in Hj. apply Hin. lia. }
    apply subseteq_size in HX. unfold X in HX.
    rewrite size_list_to_set in HX.
    + rewrite length_fmap, length_seq in HX. lia.
    + apply NoDup_fmap_2; [intros a b; apply candidate_inj|apply NoDup_seq].
  - case_bool_decide as Hc; [|exact Hc].
    apply (IH (S k)); [|lia].
    intros j Hj. destruct (decide (j = k)) as [->|]; [exact Hc|]. apply Hin. lia.
Qed.

Lemma clean_columns_spec (cols : list pystr) (_seen : gset pystr) :
  length (clean_columns _seen cols) = length cols /\
  NoDup (clean_columns _seen cols) /\
  Forall (fun x => x ∉ _seen) (clean_columns _seen cols) /\
  Forall (fun x => is_clean_column_name x = true) (clean_columns _seen cols).
Proof.
  revert _seen. induction cols as [|col rest IH]; intros _seen; cbn [clean_columns].
  - repeat split; constructor.
  - set (name := find_free (S (size _seen)) _seen (clean_name col) 1 (clean_name col)).
    assert (Hfresh : name ∉ _seen).
    { apply (find_free_fresh _ _ _ 0); [intros; lia|lia]. }
    assert (Hclean : is_clean_column_name name = true).
    { destruct (find_free_candidate (S (size _seen)) _seen (clean_name col) 0) as [j Hj].
      unfold name. cbn [candidate] in Hj. rewrite Hj. apply candidate_clean, clean_name_clean. }
    destruct (IH ({[name]} ∪ _seen)) as (Hlen & Hnd & Hout & Hcl).
    split; [cbn [length]; rewrite Hlen; reflexivity|]. split; [|split].
    + constructor; [|exact Hnd].
      intros Hin. eapply Forall_forall in Hout; [|exact Hin]. set_solver.
    + constructor; [exact Hfresh|].
      eapply List.Forall_impl; [|exact Hout]. cbn. set_solver.
    + constructor; assumption.
Qed.

Lemma name_not_space (c : N) : is_name_char c = true -> is_space c = false.
Proof.
  intros H. destruct (is_space c) eqn:E; [|reflexivity]. exfalso.
  unfold is_name_char, is_space in *.
  repeat rewrite ?orb_true_iff, ?andb_true_iff, ?N.leb_le, ?N.eqb_eq in H.
  repeat rewrite ?orb_true_iff, ?andb_true_iff, ?N.leb_le, ?N.eqb_eq in E. lia.
Qed.

Lemma name_not_underscore (c : N) : is_name_char c = true -> (95 =? c) = false.
Proof. intros H. apply N.eqb_neq. intros <-. discriminate H. Qed.

Lemma lstrip_clean (f : N -> bool) (s : pystr) :
  is_clean_column_name s = true -> (forall c, is_name_char c = true -> f c = false) ->
  lstrip_by f s = s.
Proof.
  unfold is_clean_column_name. destruct s as [|c r]; [reflexivity|]. cbn [clean_from lstrip_by].
  intros H Hf. destruct (is_name_char c) eqn:E; [rewrite Hf by exact E; reflexivity|].
  rewrite andb_false_r in H. discriminate H.
Qed.

Lemma rstrip_clean (f : N -> bool) (s : pystr) (b : bool) :
  clean_from b s = true -> (forall c, is_name_char c = true -> f c = false) ->
  rstrip_by f s = s.
Proof.
  revert b. induction s as [|c r IH]; intros b H Hf; [reflexivity|].
  cbn [clean_from] in H. cbn [rstrip_by].
  assert (Hr : exists b', clean_from b' r = true /\ (r = [] -> is_name_char c = true)).
  { destruct (is_name_char c); [eauto|].
    apply andb_true_iff in H as [_ H]. exists true. split; [exact H|]. intros ->. discriminate H. }
  destruct Hr as (b' & Hr & Hlast). rewrite (IH b' Hr Hf).
  destruct r as [|d r']; [|reflexivity]. rewrite Hf by (apply Hlast; reflexivity). reflexivity.
Qed.

Lemma sub_clean (s : pystr) (b : bool) : clean_from b s = true -> sub_nonname_runs b s = s.
Proof.
  revert b. induction s as [|c r IH]; intros b H; [reflexivity|].
  cbn [clean_from] in H. cbn [sub_nonname_runs].
  destruct (is_name_char c); [f_equal; apply IH; exact H|].
  apply andb_true_iff in H as [H1 H]. apply andb_true_iff in H1 as [Hc Hb].
  apply N.eqb_eq in Hc. subst c. destruct b; [discriminate|]. f_equal. apply IH. exact H.
Qed.

Lemma clean_name_fixed (s : pystr) : is_clean_column_name s = true -> clean_name s = s.
Proof.
  intros H. unfold clean_name, py_strip, strip_by.
  rewrite (lstrip_clean _ _ H name_not_space), (rstrip_clean _ _ _ H name_not_space).
  rewrite (sub_clean s false (clean_from_true_false _ H)).
  rewrite (lstrip_clean _ _ H name_not_underscore), (rstrip_clean _ _ _ H name_not_underscore).
  destruct s; [discriminate H|reflexivity].
Qed.

Lemma clean_columns_fixed (cols : list pystr) (_seen : gset pystr) :
  Forall (fun s => is_clean_column_name s = true) cols -> NoDup cols ->
  Forall (fun x => x ∉ _seen) cols -> clean_columns _seen cols = cols.
Proof.
  revert _seen. induction cols as [|col rest IH]; intros _seen Hc Hnd Hout; [reflexivity|].
  inversion Hc as [|? ? Hc1 Hcs]; inversion Hnd as [|? ? Hnd1 Hnds]; inversion Hout as [|? ? Ho1 Hos]; subst.
  cbn [clean_columns]. rewrite (clean_name_fixed _ Hc1). cbn [find_free].
  rewrite bool_decide_false by exact Ho1. f_equal. apply IH; [exact Hcs|exact Hnds|].
  apply Forall_forall. intros x Hx. apply not_elem_of_union. split.
  - apply not_elem_of_singleton. intros ->. contradiction.
  - eapply Forall_forall in Hos; [exact Hos|exact Hx].
Qed.

End ColumnNames.

Section ColumnNameTheorems.

(** The new column names are as many as the old ones and pairwise
    distinct: a duplicate gets the first free [_1], [_2], ... suffix. *)
Theorem clean_columns_distinct (columns : list value) :
  (length (clean_column_names_with_replacement columns) = length columns)%nat /\
  NoDup (clean_column_names_with_replacement columns).
Proof.
  unfold clean_column_names_with_replacement.
  destruct (clean_columns_spec (map py_str columns) ∅) as (Hlen & Hnd & _).
  rewrite Hlen, length_map. split; [reflexivity|exact Hnd].
Qed.

(** Every new column name is non-empty, is made of the characters
    [一-龥a-zA-Z0-9] and underscores, and has no leading, trailing or
    doubled underscore. *)
Theorem clean_columns_well_formed (columns : list value) :
  Forall (fun s => is_clean_column_name s = true) (clean_column_names_with_replacement columns).
Proof.
  unfold clean_column_names_with_replacement.
  destruct (clean_columns_spec (map py_str columns) ∅) as (_ & _ & _ & Hcl). exact Hcl.
Qed.

(** Column labels that are already clean names and pairwise distinct are
    kept as they are. *)
Theorem clean_columns_keep_clean_names (cols : list pystr) :
  Forall (fun s => is_clean_column_name s = true) cols -> NoDup cols ->
  clean_column_names_with_replacement (map VStr cols) = cols.
Proof.
  intros Hc Hnd. unfold clean_column_names_with_replacement.
  rewrite map_map. cbn [py_str]. rewrite map_id.
  apply clean_columns_fixed; [exact Hc|exact Hnd|].
  apply Forall_forall. intros x _. apply not_elem_of_empty.
Qed.

(** Cleaning the cleaned column labels again changes nothing. *)
Theorem clean_columns_idempotent (columns : list value) :
  clean_column_names_with_replacement (map VStr (clean_column_names_with_replacement columns))
  = clean_column_names_with_replacement columns.
Proof.
  destruct (clean_columns_spec (map py_str columns) ∅) as (_ & Hnd & _ & Hcl).
  unfold clean_column_names_with_replacement at 1.
  rewrite map_map. cbn [py_str]. rewrite map_id.
  apply clean_columns_fixed; [exact Hcl|exact Hnd|].
  apply Forall_forall. intros x _. apply not_elem_of_empty.
Qed.

End ColumnNameTheorems.

Lemma clean_columns_keep_clean_names_witness :
  Forall (fun s => is_clean_column_name s = true) [u "销售额_2023"; u "id"; u "id_1"] /\
  NoDup [u "销售额_2023"; u "id"; u "id_1"] /\
  clean_column_names_with_replacement (map VStr [u "销售额_2023"; u "id"; u "id_1"])
  = [u "销售额_2023"; u "id"; u "id_1"].
Proof.
  assert (Hc : Forall (fun s => is_clean_column_name s = true) [u "销售额_2023"; u "id"; u "id_1"])
    by (repeat constructor).
  assert (Hnd : NoDup [u "销售额_2023"; u "id"; u "id_1"])
    by (apply (bool_decide_unpack _); vm_compute; reflexivity).
  split; [exact Hc|]. split; [exact Hnd|].
  apply clean_columns_keep_clean_names; [exact Hc|exact Hnd].
Defined.

Section Strip.

Variable f : N -> bool.

Lemma lstrip_head (s : pystr) :
  match lstrip_by f s with [] => True | c :: _ => f c = false end.
Proof.
  induction s as [|c r IH]; cbn; [exact I|]. destruct (f c) eqn:E; [exact IH|exact E].
Qed.

Lemma rstrip_cons (c : N) (r : pystr) :
  rstrip_by f (c :: r) = [] \/ exists r', rstrip_by f (c :: r) = c :: r'.
Proof.
  cbn. destruct (rstrip_by f r); [destruct (f c)|]; eauto.
Qed.

Lemma rstrip_idem (s : pystr) : rstrip_by f (rstrip_by f s) = rstrip_by f s.
Proof.
  induction s as [|c r IH]; [reflexivity|]. cbn [rstrip_by].
  destruct (rstrip_by f r) as [|d r'] eqn:R.
  - destruct (f c) eqn:E; [reflexivity|]. cbn. rewrite E. reflexivity.
  - change (rstrip_by f (c :: d :: r')) with
      (match rstrip_by f (d :: r') with [] => if f c then [] else [c] | _ => c :: rstrip_by f (d :: r') end).
    rewrite IH. reflexivity.
Qed.

Lemma lstrip_all (s : pystr) : Forall (fun c => f c = true) s -> lstrip_by f s = [].
Proof. induction 1 as [|c r Hc _ IH]; cbn; [reflexivity|]. rewrite Hc. exact IH. Qed.

Lemma lstrip_keep (s : pystr) :
  match s with [] => True | c :: _ => f c = false end -> lstrip_by f s = s.
Proof. destruct s as [|c r]; cbn; [reflexivity|]. intros ->. reflexivity. Qed.

Lemma strip_idem (s : pystr) : strip_by f (strip_by f s) = strip_by f s.
Proof.
  unfold strip_by. pose proof (lstrip_head s) as H.
  destruct (lstrip_by f s) as [|c r] eqn:L; [reflexivity|].
  destruct (rstrip_cons c r) as [R|[r' R]]; rewrite R; [reflexivity|].
  rewrite lstrip_keep by exact H. rewrite <- R. apply rstrip_idem.
Qed.

Lemma lstrip_forall (P : N -> Prop) (s : pystr) : Forall P s -> Forall P (lstrip_by f s).
Proof. induction 1 as [|c r Hc Hr IH]; cbn; [constructor|]. destruct (f c); [exact IH|constructor; assumption]. Qed.

Lemma rstrip_forall (P : N -> Prop) (s : pystr) : Forall P s -> Forall P (rstrip_by f s).
Proof.
  induction 1 as [|c r Hc Hr IH]; cbn; [constructor|].
  destruct (rstrip_by f r); [destruct (f c); repeat constructor; assumption|].
  constructor; assumption.
Qed.

Lemma strip_forall (P : N -> Prop) (s : pystr) : Forall P s -> Forall P (strip_by f s).
Proof. intros H. apply rstrip_forall, lstrip_forall, H. Qed.

End Strip.

Section SplitStatements.

Lemma py_split_forall (sep : N) (P : N -> Prop) (s : pystr) :
  Forall P s -> Forall (fun p => Forall (fun c => P c /\ c <> sep) p) (py_split sep s).
Proof.
  induction 1 as [|c r Hc Hr IH]; cbn [py_split]; [repeat constructor|].
  destruct (N.eqb_spec c sep) as [->|Hne]; [constructor; [constructor|exact IH]|].
  destruct (py_split sep r) as [|p ps]; [repeat constructor; assumption|].
  inversion IH as [|? ? Hp Hps]; subst. constructor; [constructor; [split|]|]; assumption.
Qed.

Lemma py_split_nosep (sep : N) (x : pystr) : sep ∉ x -> py_split sep x = [x].
Proof.
  induction x as [|c r IH]; intros H; [reflexivity|]. cbn [py_split].
  rewrite not_elem_of_cons in H. destruct H as [H1 H2].
  rewrite IH by exact H2. replace (c =? sep) with false; [reflexivity|].
  symmetry. apply N.eqb_neq. congruence.
Qed.

Lemma py_split_app (sep : N) (x y : pystr) :
  sep ∉ x -> py_split sep (x ++ sep :: y) = x :: py_split sep y.
Proof.
  induction x as [|c r IH]; intros H; cbn [app py_split].
  - rewrite N.eqb_refl. reflexivity.
  - rewrite not_elem_of_cons in H. destruct H as [H1 H2].
    change (py_split sep (r ++ sep :: y)) with (py_split sep (r ++ sep :: y)).
    rewrite IH by exact H2. replace (c =? sep) with false; [reflexivity|].
    symmetry. apply N.eqb_neq. congruence.
Qed.

Lemma py_split_join (sep : N) (parts : list pystr) :
  parts <> [] -> Forall (fun p => sep ∉ p) parts -> py_split sep (py_join [sep] parts) = parts.
Proof.
  induction parts as [|p ps IH]; intros Hne H; [congruence|].
  inversion H as [|? ? Hp Hps]; subst.
  destruct ps as [|p' ps'].
  - cbn [py_join]. apply py_split_nosep. exact Hp.
  - change (py_join [sep] (p :: p' :: ps')) with (p ++ [sep] ++ py_join [sep] (p' :: ps')).
    cbn [app]. rewrite py_split_app by exact Hp. f_equal. apply IH; [discriminate|exact Hps].
Qed.

Lemma truthy_str (s : pystr) : truthy (VStr s) = true <-> s <> [].
Proof. destruct s; cbn; split; congruence. Qed.

End SplitStatements.

(** Every statement produced from a query by [split(';')], [strip()] and
    the emptiness filter is non-empty, holds no [;], and has no leading or
    trailing whitespace. *)
Theorem split_sql_statements_clean (sql_query : pystr) :
  Forall (fun stmt => stmt <> [] /\ (59 ∉ stmt) /\ py_strip stmt = stmt)
    (split_sql_statements sql_query).
Proof.
  unfold split_sql_statements.
  pose proof (py_split_forall 59 (fun _ => True) sql_query) as H.
  assert (Htrue : Forall (fun _ => True) sql_query) by (apply List.Forall_forall; auto).
  specialize (H Htrue).
  apply List.Forall_forall. intros stmt Hin.
  apply in_map_iff in Hin as (p & <- & Hin). apply filter_In in Hin as [Hin Ht].
  apply truthy_str in Ht. split; [exact Ht|]. split.
  - eapply List.Forall_forall in H; [|exact Hin].
    assert (H' : Forall (fun c => c <> 59) p).
    { eapply List.Forall_impl; [|exact H]. cbn. intros c [_ Hc]. exact Hc. }
    apply (strip_forall is_space (fun c => c <> 59)) in H'.
    intros Hel. eapply Forall_forall in H'; [|exact Hel]. congruence.
  - apply strip_idem.
Qed.

(** Statements that are non-empty, hold no [;] and are already stripped
    come back unchanged from splitting their [;]-joined text. *)
Theorem split_sql_statements_join (stmts : list pystr) :
  Forall (fun stmt => stmt <> [] /\ (59 ∉ stmt) /\ py_strip stmt = stmt) stmts ->
  split_sql_statements (py_join [59] stmts) = stmts.
Proof.
  intros H. unfold split_sql_statements. destruct stmts as [|s0 ss]; [reflexivity|].
  rewrite py_split_join.
  - induction H as [|s ss' [Hne [_ Hs]] _ IH]; [reflexivity|].
    cbn [List.filter map]. rewrite Hs. replace (truthy (VStr s)) with true by (symmetry; apply truthy_str; exact Hne).
    cbn [map]. rewrite Hs. f_equal. exact IH.
  - discriminate.
  - eapply List.Forall_impl; [|exact H]. cbn. intros s [_ [Hs _]]. exact Hs.
Qed.

Lemma split_sql_statements_join_witness :
  Forall (fun stmt => stmt <> [] /\ (59 ∉ stmt) /\ py_strip stmt = stmt)
    [u "SELECT 1"; u "SELECT * FROM t"] /\
  split_sql_statements (py_join [59] [u "SELECT 1"; u "SELECT * FROM t"])
  = [u "SELECT 1"; u "SELECT * FROM t"].
Proof.
  assert (H : Forall (fun stmt => stmt <> [] /\ (59 ∉ stmt) /\ py_strip stmt = stmt)
                [u "SELECT 1"; u "SELECT * FROM t"]).
  { repeat constructor;
      try (vm_compute; discriminate); try (apply (bool_decide_unpack _); vm_compute; reflexivity). }
  split; [exact H|]. apply split_sql_statements_join. exact H.
Defined.

Section JsonDumps.

Lemma json_dumps_list_ok (l : list value) : Forall dumpable l -> dumpable (VList l).
Proof.
  unfold dumpable. induction 1 as [|x l [a Ha] _ [t IH]]; [eexists; reflexivity|].
  cbn [json_dumps] in *. rewrite Ha. cbn [exc_bind].
  match type of IH with context [exc_bind ?m _] => destruct m eqn:E end; [|discriminate].
  cbn. eexists. reflexivity.
Qed.

Lemma json_dumps_dict_ok (d : list (pystr * value)) :
  Forall (fun kv => dumpable kv.2) d -> dumpable (VDict d).
Proof.
  unfold dumpable. induction 1 as [|[k x] d [a Ha] _ [t IH]]; [eexists; reflexivity|].
  cbn [json_dumps] in *. cbn [snd] in Ha. rewrite Ha. cbn [exc_bind].
  match type of IH with context [exc_bind ?m _] => destruct m eqn:E end; [|discriminate].
  cbn. eexists. reflexivity.
Qed.

End JsonDumps.

Section ExecuteSqlTheorems.

Context {conn frame : Type}.
Variable connect : exc conn.
Variable run : conn -> pystr -> conn * exc frame.
Variable to_json_records : frame -> exc pystr.
Variable json_loads : pystr -> exc value.
Variable frame_len frame_columns : frame -> nat.
Variable is_duckdb_error : pyexc -> bool.

Lemma run_statements_length (con : conn) (i : nat) (stmts : list pystr) :
  length (run_statements run to_json_records json_loads frame_len frame_columns con i stmts)
  = length stmts.
Proof.
  revert con i. induction stmts as [|s ss IH]; intros con i; [reflexivity|].
  cbn [run_statements]. destruct (run con s) as [con' r]. cbn [length]. rewrite IH. reflexivity.
Qed.

Lemma run_statements_entry (con : conn) (i : nat) (stmts : list pystr) (k : nat) (stmt : pystr) :
  stmts !! k = Some stmt ->
  exists rest,
    run_statements run to_json_records json_loads frame_len frame_columns con i stmts !! k
    = Some (VDict ((u "query_index", VInt (Z.of_nat (S (i + k))))
                   :: (u "sql", VStr (sql_preview stmt)) :: rest)).
Proof.
  revert con i k. induction stmts as [|s ss IH]; intros con i k Hk; [discriminate|].
  cbn [run_statements]. destruct (run con s) as [con' r].
  destruct k as [|k].
  - injection Hk as <-. cbn. rewrite Nat.add_0_r.
    match goal with |- exists _, Some (match ?m with _ => _ end) = _ => destruct m as [[df v]|e] end;
      eexists; reflexivity.
  - cbn in Hk. destruct (IH con' (S i) k Hk) as [rest Hr]. exists rest.
    replace (i + S k)%nat with (S i + k)%nat by lia. exact Hr.
Qed.

Lemma run_statements_dumpable (con : conn) (i : nat) (stmts : list pystr) :
  (forall j v, json_loads j = Ok v -> dumpable v) ->
  Forall dumpable (run_statements run to_json_records json_loads frame_len frame_columns con i stmts).
Proof.
  intros Hj. revert con i. induction stmts as [|s ss IH]; intros con i; [constructor|].
  cbn [run_statements]. destruct (run con s) as [con' r]. constructor; [|apply IH].
  destruct r as [df|e]; cbn [exc_bind].
  - destruct (to_json_records df) as [j|e]; cbn [exc_bind].
    + destruct (json_loads j) as [v|e] eqn:E; cbn [exc_bind].
      * apply Hj in E. apply json_dumps_dict_ok.
        repeat constructor; cbn [snd]; try exact E; eexists; reflexivity.
      * apply json_dumps_dict_ok. repeat constructor; cbn [snd]; eexists; reflexivity.
    + apply json_dumps_dict_ok. repeat constructor; cbn [snd]; eexists; reflexivity.
  - apply json_dumps_dict_ok. repeat constructor; cbn [snd]; eexists; reflexivity.
Qed.

Lemma split_sql_statements_blank (sql_query : pystr) :
  Forall (fun c => is_space c = true \/ c = 59) sql_query -> split_sql_statements sql_query = [].
Proof.
  intros H. apply (py_split_forall 59) in H. unfold split_sql_statements.
  induction H as [|p ps Hp _ IH]; [reflexivity|]. cbn [List.filter].
  replace (truthy (VStr (py_strip p))) with false; [exact IH|].
  unfold py_strip, strip_by. rewrite lstrip_all; [reflexivity|].
  eapply List.Forall_impl; [|exact Hp]. cbn. intros c [[Hc|Hc] Hne]; congruence.
Qed.

(** With two or more statements (or none), a query is answered by a JSON
    object whose [results] list has one entry per statement, in order: the
    entry of the [k]-th statement starts with [query_index] [k+1] and the
    statement's [sql] preview, whether the statement failed or not. *)
Theorem execute_sql_multi_statement_results (sql_query : pystr) (con : conn) :
  connect = Ok con ->
  length (split_sql_statements sql_query) <> 1%nat ->
  (forall j v, json_loads j = Ok v -> dumpable v) ->
  exists results,
    json_dumps (VDict [(u "multiple_queries", VBool true); (u "results", VList results)])
    = Ok (execute_sql connect run to_json_records json_loads frame_len frame_columns
            is_duckdb_error sql_query) /\
    length results = length (split_sql_statements sql_query) /\
    forall k stmt, split_sql_statements sql_query !! k = Some stmt ->
      exists rest,
        results !! k = Some (VDict ((u "query_index", VInt (Z.of_nat (S k)))
                                    :: (u "sql", VStr (sql_preview stmt)) :: rest)).
Proof.
  intros Hc Hlen Hj.
  set (stmts := split_sql_statements sql_query) in *.
  set (results := run_statements run to_json_records json_loads frame_len frame_columns con 0 stmts).
  exists results.
  assert (Hd : dumpable (VDict [(u "multiple_queries", VBool true); (u "results", VList results)])).
  { apply json_dumps_dict_ok. repeat constructor; cbn [snd]; [eexists; reflexivity|].
    apply json_dumps_list_ok, run_statements_dumpable, Hj. }
  destruct Hd as [t Ht].
  split; [|split].
  - unfold execute_sql, execute_sql_body. rewrite Hc. cbn [exc_bind]. fold stmts.
    destruct stmts as [|s0 [|s1 ss]] eqn:Es; [| cbn in Hlen; congruence |];
      fold results; rewrite Ht; reflexivity.
  - apply run_statements_length.
  - intros k stmt Hk. apply (run_statements_entry con 0) in Hk. exact Hk.
Qed.

(** A query made only of whitespace and semicolons runs no statement and is
    answered [{"multiple_queries": true, "results": []}], not an error. *)
Theorem execute_sql_blank_query (sql_query : pystr) (con : conn) :
  connect = Ok con ->
  Forall (fun c => is_space c = true \/ c = 59) sql_query ->
  execute_sql connect run to_json_records json_loads frame_len frame_columns is_duckdb_error
    sql_query = q "{`multiple_queries`: true, `results`: []}".
Proof.
  intros Hc Hb. unfold execute_sql, execute_sql_body. rewrite Hc. cbn [exc_bind].
  rewrite (split_sql_statements_blank _ Hb). vm_compute. reflexivity.
Qed.

End ExecuteSqlTheorems.

Lemma execute_sql_multi_statement_results_witness :
  demo_connect = Ok tt /\
  length (split_sql_statements (u "SELECT x FROM t; bad")) <> 1%nat /\
  (forall j v, demo_json_loads j = Ok v -> dumpable v) /\
  exists results,
    json_dumps (VDict [(u "multiple_queries", VBool true); (u "results", VList results)])
    = Ok (demo_execute_sql (u "SELECT x FROM t; bad")) /\
    length results = length (split_sql_statements (u "SELECT x FROM t; bad")) /\
    forall k stmt, split_sql_statements (u "SELECT x FROM t; bad") !! k = Some stmt ->
      exists rest,
        results !! k = Some (VDict ((u "query_index", VInt (Z.of_nat (S k)))
                                    :: (u "sql", VStr (sql_preview stmt)) :: rest)).
Proof.
  assert (Hj : forall j v, demo_json_loads j = Ok v -> dumpable v).
  { intros j v H. injection H as <-. eexists. reflexivity. }
  assert (Hl : length (split_sql_statements (u "SELECT x FROM t; bad")) <> 1%nat)
    by (vm_compute; discriminate).
  split; [reflexivity|]. split; [exact Hl|]. split; [exact Hj|].
  exact (execute_sql_multi_statement_results demo_connect demo_run demo_to_json demo_json_loads
           (fun n => n) (fun _ => 1%nat) (fun _ => true) (u "SELECT x FROM t; bad") tt
           eq_refl Hl Hj).
Defined.

Lemma execute_sql_blank_query_witness :
  demo_connect = Ok tt /\
  Forall (fun c => is_space c = true \/ c = 59) (u " ;  ;") /\
  demo_execute_sql (u " ;  ;") = q "{`multiple_queries`: true, `results`: []}".
Proof.
  assert (Hb : Forall (fun c => is_space c = true \/ c = 59) (u " ;  ;")).
  { vm_compute.
    repeat (apply List.Forall_cons; [first [left; reflexivity | right; reflexivity]|]).
    apply List.Forall_nil. }
  split; [reflexivity|]. split; [exact Hb|].
  exact (execute_sql_blank_query demo_connect demo_run demo_to_json demo_json_loads
           (fun n => n) (fun _ => 1%nat) (fun _ => true) (u " ;  ;") tt eq_refl Hb).
Defined.

Section FreshBinding.

Lemma evict_loop_keeps_last (cap : nat) (st : gmap key value) (ord : list key) (k : key) :
  (1 <= cap)%nat -> k ∉ ord -> (evict_loop cap st (ord ++ [k])).1 !! k = st !! k.
Proof.
  intros Hcap. revert st. induction ord as [|x ord IH]; intros st Hk.
  - cbn [app evict_loop]. replace (Nat.ltb cap (length [k])) with false; [reflexivity|].
    symmetry. apply Nat.ltb_ge. cbn. lia.
  - rewrite not_elem_of_cons in Hk. destruct Hk as [Hx Hk].
    cbn [app evict_loop]. destruct (Nat.ltb cap _); [|reflexivity].
    rewrite IH by exact Hk. apply lookup_delete_ne. congruence.
Qed.

Lemma register_binding_get (p : processor) (tool : pystr) (v : value) (n : option pystr)
    (millis : Z) (uuid_hex : pystr) :
  (1 <= max_store_items p)%nat ->
  (tool, (register_binding p tool v n millis uuid_hex).2) ∉ _order p ->
  get_binding (register_binding p tool v n millis uuid_hex).1 tool
    (register_binding p tool v n millis uuid_hex).2 = v.
Proof.
  intros Hcap Hfresh. unfold register_binding, _evict_if_necessary in *. cbn [fst snd] in *.
  set (k := (tool, _)) in *. cbn [max_store_items _store _order set_store].
  pose proof (evict_loop_keeps_last (max_store_items p) (<[k:=v]> (_store p)) (_order p) k Hcap Hfresh)
    as E.
  destruct (evict_loop _ _ _) as [st ord]. cbn [fst] in E. unfold get_binding, set_store.
  cbn [_store fst snd]. fold k. rewrite E, lookup_insert_eq. reflexivity.
Qed.

Lemma register_binding_known (p : processor) (tool : pystr) (v : value) (n : option pystr)
    (millis : Z) (uuid_hex : pystr) :
  _known_tools (register_binding p tool v n millis uuid_hex).1 = _known_tools p.
Proof.
  unfold register_binding, _evict_if_necessary. cbn. destruct (evict_loop _ _ _). reflexivity.
Qed.

Lemma placeholder_token (tool var : pystr) : placeholder tool var = token_text [] tool [] [] var [].
Proof. unfold placeholder, token_text. cbn. rewrite <- ?app_assoc. reflexivity. Qed.

Lemma tool_char_var_char (c : N) : is_tool_char c = true -> is_var_char c = true.
Proof. unfold is_var_char. intros ->. reflexivity. Qed.

Lemma generated_name_var_chars (tool : pystr) (millis : Z) (uuid_hex : pystr) :
  Forall (fun c => is_tool_char c = true) tool -> (0 <= millis)%Z ->
  Forall (fun c => is_var_char c = true) (firstn 8 uuid_hex) ->
  Forall (fun c => is_var_char c = true) (generated_name tool millis uuid_hex).
Proof.
  intros Ht Hm Hu. unfold generated_name.
  assert (Hus : Forall (fun c => is_var_char c = true) (u "_")) by (repeat constructor).
  assert (Hd : Forall (fun c => is_var_char c = true) (py_str_int millis)).
  { rewrite <- (Z2N.id millis Hm). eapply List.Forall_impl; [|apply py_str_int_digits].
    intros c Hc. cbv beta in Hc. unfold is_var_char, is_tool_char.
    replace ((48 <=? c) && (c <=? 57)) with true; [rewrite !orb_true_r; reflexivity|].
    symmetry. apply andb_true_iff. split; apply N.leb_le; lia. }
  repeat apply Forall_app_2; try assumption.
  eapply List.Forall_impl; [|exact Ht]. intros c. apply tool_char_var_char.
Qed.

Lemma resolve_placeholder (p : processor) (now : Z) (tool var : pystr) :
  tool <> [] -> var <> [] ->
  Forall (fun c => is_tool_char c = true) tool -> Forall (fun c => is_var_char c = true) var ->
  resolve_placeholders_in_text p now (Some (placeholder tool var))
  = let* x := replacer p now tool var (placeholder tool var) in Ok (x ++ []).
Proof.
  intros Nt Nv Ht Hv. rewrite resolve_some, placeholder_token.
  set (T := token_text [] tool [] [] var []).
  assert (Hs : token_shape tool var T) by (exists [], [], [], []; repeat split; auto).
  assert (M : match_at T = Some (tool, var, T, [])).
  { rewrite <- (app_nil_r T) at 1. apply match_at_of_shape, Hs. }
  assert (HT : exists s', T = 123 :: s') by (eexists; reflexivity).
  destruct HT as [s' HT].
  rewrite HT at 1. rewrite sub_all_cons. rewrite <- HT, M, sub_all_nil. reflexivity.
Qed.

Lemma evict_loop_lookup (cap : nat) (st : gmap key value) (ord : list key) (k : key) :
  (evict_loop cap st ord).1 !! k = st !! k \/ (evict_loop cap st ord).1 !! k = None.
Proof.
  revert st. induction ord as [|x ord IH]; intros st; cbn [evict_loop]; [left; reflexivity|].
  destruct (Nat.ltb cap _); [|left; reflexivity].
  destruct (IH (delete x st)) as [-> | ->]; [|right; reflexivity].
  destruct (decide (x = k)) as [->|Hne].
  - right. apply lookup_delete_eq.
  - left. apply lookup_delete_ne. exact Hne.
Qed.

Lemma register_none_get (p : processor) (tool : pystr) (n : option pystr) (millis : Z)
    (uuid_hex : pystr) :
  get_binding (register_binding p tool VNone n millis uuid_hex).1 tool
    (register_binding p tool VNone n millis uuid_hex).2 = VNone.
Proof.
  unfold register_binding, _evict_if_necessary. cbn [fst snd].
  set (k := (tool, _)). cbn [max_store_items _store _order set_store].
  destruct (evict_loop_lookup (max_store_items p) (<[k:=VNone]> (_store p)) (_order p ++ [k]) k)
    as [E|E];
  destruct (evict_loop _ _ _) as [st ord]; cbn [fst] in E; unfold get_binding, set_store;
  cbn [_store]; fold k; rewrite E; [|reflexivity].
  rewrite lookup_insert_eq. reflexivity.
Qed.

End FreshBinding.

(** Registering a value under a key that is not yet in the insertion-order
    list, with a capacity of at least one, keeps it: [get_binding] with the
    returned name gives the value back. *)
Theorem register_binding_fresh_key_kept (p : processor) (tool_name : pystr) (v : value)
    (var_name : option pystr) (millis : Z) (uuid_hex : pystr) :
  (1 <= max_store_items p)%nat ->
  (tool_name, (register_binding p tool_name v var_name millis uuid_hex).2) ∉ _order p ->
  get_binding (register_binding p tool_name v var_name millis uuid_hex).1 tool_name
    (register_binding p tool_name v var_name millis uuid_hex).2 = v.
Proof. apply register_binding_get. Qed.

Lemma register_binding_fresh_key_kept_witness :
  (1 <= max_store_items default_processor)%nat /\
  ((u "sql", (register_binding default_processor (u "sql") sql_rows None demo_millis demo_uuid).2)
    ∉ _order default_processor) /\
  get_binding (register_binding default_processor (u "sql") sql_rows None demo_millis demo_uuid).1
    (u "sql") (register_binding default_processor (u "sql") sql_rows None demo_millis demo_uuid).2
  = sql_rows.
Proof.
  assert (H1 : (1 <= max_store_items default_processor)%nat) by (cbn; lia).
  assert (H2 : (u "sql", (register_binding default_processor (u "sql") sql_rows None demo_millis
                            demo_uuid).2) ∉ _order default_processor)
    by (apply not_elem_of_nil).
  split; [exact H1|]. split; [exact H2|].
  exact (register_binding_fresh_key_kept default_processor (u "sql") sql_rows None demo_millis
           demo_uuid H1 H2).
Defined.

Lemma register_resolve_json (p : processor) (tool : pystr) (v : value)
    (millis now : Z) (uuid_hex t : pystr) :
  (1 <= max_store_items p)%nat ->
  (tool, (register_binding p tool v None millis uuid_hex).2) ∉ _order p ->
  tool <> [] -> Forall (fun c => is_tool_char c = true) tool ->
  (0 <= millis)%Z -> Forall (fun c => is_var_char c = true) (firstn 8 uuid_hex) ->
  (_known_tools p = ∅ \/ tool ∈ _known_tools p) ->
  tool <> u "execute_sql" -> v <> VNone -> json_dumps v = Ok t ->
  resolve_placeholders_in_text (register_binding p tool v None millis uuid_hex).1 now
    (Some (placeholder tool (register_binding p tool v None millis uuid_hex).2)) = Ok t.
Proof.
  intros Hcap Hfresh Nt Ht Hm Hu Hk Hx Hv Hj.
  pose proof (register_binding_get p tool v None millis uuid_hex Hcap Hfresh) as G.
  pose proof (register_binding_known p tool v None millis uuid_hex) as K.
  assert (Hn : (register_binding p tool v None millis uuid_hex).2
               = generated_name tool millis uuid_hex) by reflexivity.
  destruct (register_binding p tool v None millis uuid_hex) as [p' name].
  cbn [fst snd] in G, K, Hn |- *. subst name.
  rewrite resolve_placeholder; [| exact Nt | | exact Ht | ].
  2:{ unfold generated_name. destruct tool; [contradiction|discriminate]. }
  2:{ apply generated_name_var_chars; assumption. }
  unfold replacer. rewrite K.
  replace (bool_decide (_known_tools p ≠ ∅) && negb (bool_decide (tool ∈ _known_tools p)))
    with false.
  2:{ destruct Hk as [E|E].
      - rewrite E, bool_decide_false by (intros C; apply C; reflexivity). reflexivity.
      - rewrite (bool_decide_true (tool ∈ _known_tools p)) by exact E.
        rewrite andb_false_r. reflexivity. }
  rewrite G, bool_decide_false by exact Hx.
  destruct v; [contradiction| ..]; rewrite Hj; cbn; rewrite app_nil_r; reflexivity.
Qed.

(** Resolving the placeholder of a value just registered without a name
    gives the value's JSON text, when the capacity is at least one, the
    generated key is new to the insertion-order list, the tool name is a
    nonempty run of tool-name characters other than [execute_sql] that the
    processor accepts (no known tools, or a known one), the value is not
    [None] and [json.dumps] succeeds on it. *)
Theorem register_then_resolve_gives_json (p : processor) (tool : pystr) (v : value)
    (millis now : Z) (uuid_hex t : pystr) :
  (1 <= max_store_items p)%nat ->
  (tool, (register_binding p tool v None millis uuid_hex).2) ∉ _order p ->
  tool <> [] -> Forall (fun c => is_tool_char c = true) tool ->
  (0 <= millis)%Z -> Forall (fun c => is_var_char c = true) (firstn 8 uuid_hex) ->
  (_known_tools p = ∅ \/ tool ∈ _known_tools p) ->
  tool <> u "execute_sql" -> v <> VNone -> json_dumps v = Ok t ->
  resolve_placeholders_in_text (register_binding p tool v None millis uuid_hex).1 now
    (Some (placeholder tool (register_binding p tool v None millis uuid_hex).2)) = Ok t.
Proof. apply register_resolve_json. Qed.

Lemma register_then_resolve_gives_json_witness :
  let tool := u "create_pptx_presentation" in
  let v := VDict [(u "file_path", VStr (u "out.pptx"))] in
  (1 <= max_store_items app_processor)%nat /\
  ((tool, (register_binding app_processor tool v None demo_millis demo_uuid).2)
    ∉ _order app_processor) /\
  tool <> [] /\ Forall (fun c => is_tool_char c = true) tool /\
  (0 <= demo_millis)%Z /\ Forall (fun c => is_var_char c = true) (firstn 8 demo_uuid) /\
  (_known_tools app_processor = ∅ \/ tool ∈ _known_tools app_processor) /\
  tool <> u "execute_sql" /\ v <> VNone /\ json_dumps v = Ok (q "{`file_path`: `out.pptx`}") /\
  resolve_placeholders_in_text (register_binding app_processor tool v None demo_millis demo_uuid).1
    demo_millis (Some (placeholder tool (register_binding app_processor tool v None demo_millis
                                           demo_uuid).2))
  = Ok (q "{`file_path`: `out.pptx`}").
Proof.
  intros tool v.
  assert (H1 : (1 <= max_store_items app_processor)%nat)
    by (apply Nat.leb_le; vm_compute; reflexivity).
  assert (H2 : (tool, (register_binding app_processor tool v None demo_millis demo_uuid).2)
                 ∉ _order app_processor) by (apply not_elem_of_nil).
  assert (H3 : tool <> []) by discriminate.
  assert (H4 : Forall (fun c => is_tool_char c = true) tool) by (apply (bool_decide_unpack _); vm_compute; reflexivity).
  assert (H5 : (0 <= demo_millis)%Z) by (vm_compute; discriminate).
  assert (H6 : Forall (fun c => is_var_char c = true) (firstn 8 demo_uuid)) by (apply (bool_decide_unpack _); vm_compute; reflexivity).
  assert (H7 : _known_tools app_processor = ∅ \/ tool ∈ _known_tools app_processor)
    by (right; apply (bool_decide_unpack _); vm_compute; reflexivity).
  assert (H8 : tool <> u "execute_sql") by (apply (bool_decide_unpack _); vm_compute; reflexivity).
  assert (H9 : v <> VNone) by discriminate.
  assert (H10 : json_dumps v = Ok (q "{`file_path`: `out.pptx`}")) by (vm_compute; reflexivity).
  exact (conj H1 (conj H2 (conj H3 (conj H4 (conj H5 (conj H6 (conj H7 (conj H8 (conj H9 (conj H10
           (register_then_resolve_gives_json app_processor tool v demo_millis demo_millis demo_uuid
              _ H1 H2 H3 H4 H5 H6 H7 H8 H9 H10))))))))))).
Defined.

(** Registering [None] stores it, but its placeholder is never substituted:
    resolving the placeholder built from the returned name (a nonempty name
    of variable-name characters, under a nonempty tool name of tool-name
    characters) gives the placeholder text back unchanged. *)
Theorem register_none_placeholder_kept (p : processor) (tool : pystr) (var_name : option pystr)
    (millis now : Z) (uuid_hex : pystr) :
  tool <> [] -> Forall (fun c => is_tool_char c = true) tool ->
  (register_binding p tool VNone var_name millis uuid_hex).2 <> [] ->
  Forall (fun c => is_var_char c = true) (register_binding p tool VNone var_name millis uuid_hex).2 ->
  resolve_placeholders_in_text (register_binding p tool VNone var_name millis uuid_hex).1 now
    (Some (placeholder tool (register_binding p tool VNone var_name millis uuid_hex).2))
  = Ok (placeholder tool (register_binding p tool VNone var_name millis uuid_hex).2).
Proof.
  intros Nt Ht Nv Hv.
  pose proof (register_none_get p tool var_name millis uuid_hex) as G.
  destruct (register_binding p tool VNone var_name millis uuid_hex) as [p' name].
  cbn [fst snd] in G, Nv, Hv |- *.
  rewrite resolve_placeholder by assumption.
  rewrite replacer_unbound by exact G. cbn. rewrite app_nil_r. reflexivity.
Qed.

Lemma register_none_placeholder_kept_witness :
  (u "sql" <> []) /\ Forall (fun c => is_tool_char c = true) (u "sql") /\
  (register_binding default_processor (u "sql") VNone None demo_millis demo_uuid).2 <> [] /\
  Forall (fun c => is_var_char c = true)
    (register_binding default_processor (u "sql") VNone None demo_millis demo_uuid).2 /\
  resolve_placeholders_in_text
    (register_binding default_processor (u "sql") VNone None demo_millis demo_uuid).1 demo_millis
    (Some (placeholder (u "sql")
             (register_binding default_processor (u "sql") VNone None demo_millis demo_uuid).2))
  = Ok (placeholder (u "sql")
          (register_binding default_processor (u "sql") VNone None demo_millis demo_uuid).2).
Proof.
  assert (H1 : u "sql" <> []) by discriminate.
  assert (H2 : Forall (fun c => is_tool_char c = true) (u "sql")) by (apply (bool_decide_unpack _); vm_compute; reflexivity).
  assert (H3 : (register_binding default_processor (u "sql") VNone None demo_millis demo_uuid).2
               <> []) by (vm_compute; discriminate).
  assert (H4 : Forall (fun c => is_var_char c = true)
                 (register_binding default_processor (u "sql") VNone None demo_millis demo_uuid).2)
    by (apply (bool_decide_unpack _); vm_compute; reflexivity).
  exact (conj H1 (conj H2 (conj H3 (conj H4
           (register_none_placeholder_kept default_processor (u "sql") None demo_millis demo_millis
              demo_uuid H1 H2 H3 H4))))).
Defined.

Section ToolHandlerTheorems.

Context {conn frame : Type}.
Variable connect : exc conn.
Variable run : conn -> pystr -> conn * exc frame.
Variable to_json_records : frame -> exc pystr.
Variable json_loads : pystr -> exc value.
Variable frame_len frame_columns : frame -> nat.
Variable is_duckdb_error : pyexc -> bool.
Variable create_pptx_from_json : value -> value -> exc pystr.

Let service_tools (r : tool_registry) : tool_registry :=
  _setup_tools connect run to_json_records json_loads frame_len frame_columns is_duckdb_error
    create_pptx_from_json r.

Lemma setup_tools_sql (r : tool_registry) :
  get_handler (service_tools r) (u "execute_sql")
  = Some (sql_execution_tool connect run to_json_records json_loads frame_len frame_columns
            is_duckdb_error).
Proof.
  unfold service_tools, _setup_tools, register, get_handler. cbn [_handlers name ppt_creation_tool sql_execution_tool].
  rewrite lookup_insert_ne by (apply (bool_decide_unpack _); vm_compute; reflexivity).
  apply lookup_insert_eq.
Qed.

Lemma setup_tools_ppt (r : tool_registry) :
  get_handler (service_tools r) (u "create_pptx_presentation") = Some (ppt_creation_tool create_pptx_from_json).
Proof.
  unfold service_tools, _setup_tools, register, get_handler. cbn [_handlers name ppt_creation_tool].
  apply lookup_insert_eq.
Qed.

(** On the registry set up by [_setup_tools], dispatching [execute_sql]
    with a context dict whose ["excel_orchestrator"] entry is missing or
    falsy returns the error JSON ["请先上传Excel文件"], whatever the
    arguments; no query is run. *)
Theorem sql_tool_requires_orchestrator (r : tool_registry) (args : value)
    (context : list (pystr * value)) :
  truthy (dict_get context (u "excel_orchestrator") VNone) = false ->
  execute_tool (service_tools r) (u "execute_sql") args (VDict context)
  = Ok (u "execute_sql", error_payload (u "请先上传Excel文件")).
Proof.
  intros H. unfold execute_tool. rewrite setup_tools_sql.
  cbn [execute sql_execution_tool]. unfold sql_tool_execute. cbn [py_get exc_bind].
  rewrite H. cbn [negb]. unfold dumps_error. rewrite json_dumps_error. reflexivity.
Qed.

(** On the registry set up by [_setup_tools], dispatching [execute_sql]
    with an orchestrator in the context but a missing or empty
    ["sql_query"] argument returns the error JSON ["缺少SQL查询语句"]. *)
Theorem sql_tool_requires_query (r : tool_registry) (args context : list (pystr * value)) :
  truthy (dict_get context (u "excel_orchestrator") VNone) = true ->
  truthy (dict_get args (u "sql_query") (VStr [])) = false ->
  execute_tool (service_tools r) (u "execute_sql") (VDict args) (VDict context)
  = Ok (u "execute_sql", error_payload (u "缺少SQL查询语句")).
Proof.
  intros Ho Hq. unfold execute_tool. rewrite setup_tools_sql.
  cbn [execute sql_execution_tool]. unfold sql_tool_execute. cbn [py_get exc_bind].
  rewrite Ho. cbn [negb]. rewrite Hq. cbn [negb].
  unfold dumps_error. rewrite json_dumps_error. reflexivity.
Qed.

(** [SqlExecutionTool.execute] with an [ExcelAnalysisOrchestrator] in the
    context and a nonempty string query returns the success flag [True]
    with the text of [execute_sql] on that query, also when the query fails
    and that text is an error payload ([execute_sql] never raises). *)
Theorem sql_tool_reports_success (args context : list (pystr * value)) (r0 sql_query : pystr) :
  dict_get context (u "excel_orchestrator") VNone = VOther orchestrator_class r0 ->
  dict_get args (u "sql_query") (VStr []) = VStr sql_query -> sql_query <> [] ->
  execute (sql_execution_tool connect run to_json_records json_loads frame_len frame_columns
             is_duckdb_error) (VDict args) (VDict context)
  = Ok (true, execute_sql connect run to_json_records json_loads frame_len frame_columns
                is_duckdb_error sql_query).
Proof.
  intros Ho Hq Hn. cbn [execute sql_execution_tool]. unfold sql_tool_execute. cbn [py_get exc_bind].
  rewrite Ho. cbn [truthy negb]. rewrite Hq.
  replace (truthy (VStr sql_query)) with true by (symmetry; apply truthy_str; exact Hn).
  cbn [negb]. unfold run_analysis. rewrite bool_decide_true by reflexivity. reflexivity.
Qed.

(** On the registry set up by [_setup_tools], dispatching
    [create_pptx_presentation] with a missing or falsy ["json_content"]
    argument returns the error JSON ["缺少PPT内容数据"] without calling
    [create_pptx_from_json]. *)
Theorem ppt_tool_requires_content (r : tool_registry) (args : list (pystr * value)) (context : value) :
  truthy (dict_get args (u "json_content") (VDict [])) = false ->
  execute_tool (service_tools r) (u "create_pptx_presentation") (VDict args) context
  = Ok (u "create_pptx_presentation", error_payload (u "缺少PPT内容数据")).
Proof.
  intros H. unfold execute_tool. rewrite setup_tools_ppt.
  cbn [execute ppt_creation_tool]. unfold ppt_tool_execute. cbn [py_get exc_bind].
  rewrite H. cbn [negb]. unfold dumps_error. rewrite json_dumps_error. reflexivity.
Qed.

End ToolHandlerTheorems.

(** After [unregister(tool_name)], dispatching [tool_name] gives the
    unknown-tool error pair, whatever was registered before. *)
Theorem unregister_then_unknown (r : tool_registry) (tool_name : pystr) (args context : value) :
  execute_tool (unregister r tool_name) tool_name args context
  = Ok (tool_name, error_payload (unknown_tool_message tool_name)).
Proof.
  unfold execute_tool, get_handler, unregister. cbn [_handlers].
  rewrite lookup_delete_eq. cbn [exc_bind]. rewrite json_dumps_error. reflexivity.
Qed.


Lemma lstrip_spaces_app (f : N -> bool) (w s : pystr) :
  Forall (fun c => f c = true) w -> lstrip_by f (w ++ s) = lstrip_by f s.
Proof. induction 1 as [|c r Hc _ IH]; cbn; [reflexivity|]. rewrite Hc. exact IH. Qed.

Lemma rstrip_spaces_app (f : N -> bool) (s w : pystr) :
  Forall (fun c => f c = true) w -> rstrip_by f (s ++ w) = rstrip_by f s.
Proof.
  intros Hw. induction s as [|c r IH]; cbn [app].
  - induction Hw as [|c r Hc _ IH]; [reflexivity|]. cbn [rstrip_by]. rewrite IH. cbn. rewrite Hc. reflexivity.
  - cbn [rstrip_by]. rewrite IH. reflexivity.
Qed.

Lemma rstrip_last (f : N -> bool) (s : pystr) (c : N) : f c = false -> rstrip_by f (s ++ [c]) = s ++ [c].
Proof.
  intros Hc. induction s as [|d r IH]; cbn [app].
  - cbn. rewrite Hc. reflexivity.
  - cbn [rstrip_by]. rewrite IH. destruct (r ++ [c]) eqn:E; [destruct r; discriminate|]. reflexivity.
Qed.

Lemma is_prefix_app (p s : pystr) : is_prefix p (p ++ s) = true.
Proof. induction p as [|c p IH]; cbn; [reflexivity|]. rewrite N.eqb_refl. exact IH. Qed.

Section ParseTheorems.
Variable json_loads : pystr -> exc value.
Variable is_json_decode_error : pyexc -> bool.

(** [_parse_llm_json_response] gives the same result (value or exception)
    for a text wrapped in a [```json ... ```] fence, with any whitespace
    around the fence, as for the bare text, when the stripped bare text
    does not itself start with [```json] or end with [```]. *)
Theorem parse_fenced_as_bare (w1 w2 c : pystr) :
  Forall (fun x => is_space x = true) w1 -> Forall (fun x => is_space x = true) w2 ->
  is_prefix (u "```json") (py_strip c) = false -> py_endswith (py_strip c) (u "```") = false ->
  _parse_llm_json_response json_loads is_json_decode_error (w1 ++ u "```json" ++ c ++ u "```" ++ w2)
  = _parse_llm_json_response json_loads is_json_decode_error c.
Proof.
  intros H1 H2 Hp Hs. unfold _parse_llm_json_response.
  assert (E : py_strip (w1 ++ u "```json" ++ c ++ u "```" ++ w2) = u "```json" ++ c ++ u "```").
  { unfold py_strip, strip_by. rewrite lstrip_spaces_app by exact H1.
    rewrite lstrip_keep by reflexivity.
    rewrite !app_assoc. rewrite rstrip_spaces_app by exact H2.
    rewrite <- !app_assoc.
    change (u "```") with ([96;96] ++ [96]). rewrite !app_assoc. apply rstrip_last. reflexivity. }
  rewrite E, is_prefix_app.
  replace (skipn 7 (u "```json" ++ c ++ u "```")) with (c ++ u "```") by reflexivity.
  assert (Hend : py_endswith (c ++ u "```") (u "```") = true).
  { unfold py_endswith. rewrite rev_app_distr. apply is_prefix_app. }
  rewrite Hend. rewrite length_app.
  replace (length (u "```")) with 3%nat by reflexivity.
  replace (length c + 3 - 3)%nat with (length c) by lia.
  rewrite firstn_app, Nat.sub_diag, firstn_all. cbn [firstn]. rewrite app_nil_r.
  rewrite Hp, Hs. unfold py_strip. rewrite strip_idem. reflexivity.
Qed.
End ParseTheorems.


Lemma execute_tool_ok (r : tool_registry) (tool_name : pystr) (args context : value) :
  exists result, execute_tool r tool_name args context = Ok (tool_name, result).
Proof.
  unfold execute_tool. destruct (get_handler r tool_name) as [h|].
  - destruct (execute h args context) as [[s res]|e]; [eauto|].
    rewrite json_dumps_error. eauto.
  - rewrite json_dumps_error. eauto.
Qed.

(** Once the tool-call arguments parse, [_execute_tool_call] with a
    registry never raises and returns the tool name; and when the capacity
    is at least one and the generated key is new to the order list, the
    processor afterwards holds the full tool result (its [json.loads], or
    the raw text when that fails) under the tool name and the generated
    variable name. *)
Theorem execute_tool_call_keeps_result (json_loads : pystr -> exc value) (r : tool_registry)
    (tool_context : value) (millis : Z) (uuid_hex : pystr) (p : processor) (tc : tool_call)
    (function_args : value) :
  json_loads (tc_arguments tc) = Ok function_args ->
  exists result_str,
    execute_tool r (tc_name tc) function_args tool_context = Ok (tc_name tc, result_str) /\
    (exists out, (_execute_tool_call json_loads (Some r) tool_context millis uuid_hex p tc).2
                 = Ok (tc_name tc, out)) /\
    ((1 <= max_store_items p)%nat ->
     (tc_name tc, generated_name (tc_name tc) millis uuid_hex) ∉ _order p ->
     get_binding (_execute_tool_call json_loads (Some r) tool_context millis uuid_hex p tc).1
       (tc_name tc) (generated_name (tc_name tc) millis uuid_hex)
     = match json_loads result_str with Ok v => v | Raise _ => VStr result_str end).
Proof.
  intros Ha.
  destruct (execute_tool_ok r (tc_name tc) function_args tool_context) as [res Hres].
  exists res. split; [exact Hres|].
  set (parsed := match json_loads res with Ok v => v | Raise _ => VStr res end).
  assert (G : (1 <= max_store_items p)%nat ->
              (tc_name tc, (register_binding p (tc_name tc) parsed None millis uuid_hex).2)
                ∉ _order p ->
              get_binding (register_binding p (tc_name tc) parsed None millis uuid_hex).1
                (tc_name tc) (register_binding p (tc_name tc) parsed None millis uuid_hex).2
              = parsed)
    by apply register_binding_get.
  unfold _execute_tool_call. rewrite Ha, Hres. fold parsed.
  destruct (register_binding p (tc_name tc) parsed None millis uuid_hex) as [p' var_name] eqn:R.
  assert (Hn : var_name = generated_name (tc_name tc) millis uuid_hex).
  { change var_name with (p', var_name).2. rewrite <- R. reflexivity. }
  cbn [fst snd] in G. subst var_name.
  destruct (build_lightweight_tool_payload _ _ _ _ _); cbn [fst snd]; split; eauto.
Qed.

Lemma firstn_S_cons {A} (n : nat) (a : A) (l : list A) : firstn (S n) (a :: l) = a :: firstn n l.
Proof. reflexivity. Qed.

(** [_create_html_table] depends only on the first 100 rows and the row
    count: two row lists of the same length that agree on their first 100
    rows give the same output. *)
Theorem html_table_first_100_rows (millis : Z) (rows1 rows2 : list value) :
  length rows1 = length rows2 -> firstn 100 rows1 = firstn 100 rows2 ->
  _create_html_table millis (VList rows1) = _create_html_table millis (VList rows2).
Proof.
  intros Hl Hf. destruct rows1 as [|a1 r1], rows2 as [|a2 r2]; try discriminate; [reflexivity|].
  assert (a1 = a2) as <-.
  { change 100%nat with (S 99) in Hf. rewrite !firstn_S_cons in Hf. congruence. }
  unfold _create_html_table. rewrite Hf, Hl. reflexivity.
Qed.

Lemma escape_no_quote (s : pystr) :
  (34 ∉ flat_map (fun c => if c =? 34 then u "&quot;" else [c]) s).
Proof.
  induction s as [|c r IH]; cbn [flat_map]; [apply not_elem_of_nil|].
  rewrite not_elem_of_app. split; [|exact IH].
  destruct (c =? 34) eqn:E.
  - apply (bool_decide_unpack _). vm_compute. reflexivity.
  - rewrite not_elem_of_cons. split; [|apply not_elem_of_nil].
    intros H. subst c. discriminate E.
Qed.

(** Every table cell is [<td data-value="E">D</td>] where [E] contains no
    double quote; [None] gives empty [E] and [D]; a number shows its full
    [str()]; any other value shows at most 100 characters, and exactly its
    [str()] when that has at most 100 characters (no HTML escaping). *)
Theorem cell_html_shape (cell : value) :
  exists escaped_value display_value,
    cell_html cell = q "<td data-value=`" ++ escaped_value ++ q "`>" ++ display_value ++ u "</td>" /\
    (34 ∉ escaped_value) /\
    match cell with
    | VNone => escaped_value = [] /\ display_value = []
    | VBool _ | VInt _ => display_value = py_str cell
    | _ => (length display_value <= 100)%nat /\
           ((length (py_str cell) <= 100)%nat -> display_value = py_str cell)
    end.
Proof.
  assert (Hcut : forall s : pystr,
    (length (if Nat.ltb 100 (length s) then firstn 97 s ++ u "..." else s) <= 100)%nat /\
    ((length s <= 100)%nat -> (if Nat.ltb 100 (length s) then firstn 97 s ++ u "..." else s) = s)).
  { intros s. destruct (Nat.ltb 100 (length s)) eqn:L.
    - apply Nat.ltb_lt in L. split; [|lia].
      rewrite length_app, length_firstn. change (length (u "...")) with 3%nat. lia.
    - apply Nat.ltb_ge in L. split; [exact L|reflexivity]. }
  unfold cell_html.
  destruct cell as [| b | z | s | l | d | t r]; eexists; eexists;
    (split; [reflexivity|]); (split; [apply escape_no_quote|]); try (split; reflexivity);
    try reflexivity; apply Hcut.
Qed.

Lemma sql_tool_requires_orchestrator_witness :
  truthy (dict_get [] (u "excel_orchestrator") VNone) = false /\
  execute_tool demo_service_tools (u "execute_sql") (VDict [(u "sql_query", VStr (u "SELECT 1"))])
    (VDict []) = Ok (u "execute_sql", error_payload (u "请先上传Excel文件")).
Proof.
  assert (H : truthy (dict_get [] (u "excel_orchestrator") VNone) = false) by reflexivity.
  exact (conj H (sql_tool_requires_orchestrator demo_connect demo_run demo_to_json demo_json_loads
                   (fun n => n) (fun _ => 1%nat) (fun _ => true) demo_create_pptx empty_registry
                   _ [] H)).
Defined.

Lemma sql_tool_requires_query_witness :
  truthy (dict_get orchestrator_context (u "excel_orchestrator") VNone) = true /\
  truthy (dict_get [(u "sql_query", VStr [])] (u "sql_query") (VStr [])) = false /\
  execute_tool demo_service_tools (u "execute_sql") (VDict [(u "sql_query", VStr [])])
    (VDict orchestrator_context) = Ok (u "execute_sql", error_payload (u "缺少SQL查询语句")).
Proof.
  assert (H1 : truthy (dict_get orchestrator_context (u "excel_orchestrator") VNone) = true)
    by reflexivity.
  assert (H2 : truthy (dict_get [(u "sql_query", VStr [])] (u "sql_query") (VStr [])) = false)
    by reflexivity.
  exact (conj H1 (conj H2 (sql_tool_requires_query demo_connect demo_run demo_to_json
           demo_json_loads (fun n => n) (fun _ => 1%nat) (fun _ => true) demo_create_pptx
           empty_registry _ _ H1 H2))).
Defined.

Lemma sql_tool_reports_success_witness :
  dict_get orchestrator_context (u "excel_orchestrator") VNone
    = VOther orchestrator_class (u "<ExcelAnalysisOrchestrator>") /\
  dict_get [(u "sql_query", VStr (u "bad"))] (u "sql_query") (VStr []) = VStr (u "bad") /\
  u "bad" <> [] /\
  execute (sql_execution_tool demo_connect demo_run demo_to_json demo_json_loads (fun n => n)
             (fun _ => 1%nat) (fun _ => true)) (VDict [(u "sql_query", VStr (u "bad"))])
    (VDict orchestrator_context)
  = Ok (true, demo_execute_sql (u "bad")).
Proof.
  assert (H1 : dict_get orchestrator_context (u "excel_orchestrator") VNone
                 = VOther orchestrator_class (u "<ExcelAnalysisOrchestrator>")) by reflexivity.
  assert (H2 : dict_get [(u "sql_query", VStr (u "bad"))] (u "sql_query") (VStr [])
                 = VStr (u "bad")) by reflexivity.
  assert (H3 : u "bad" <> []) by discriminate.
  exact (conj H1 (conj H2 (conj H3 (sql_tool_reports_success demo_connect demo_run demo_to_json
           demo_json_loads (fun n => n) (fun _ => 1%nat) (fun _ => true) _ _ _ _ H1 H2 H3)))).
Defined.

Lemma ppt_tool_requires_content_witness :
  truthy (dict_get [(u "output_filename", VStr (u "report"))] (u "json_content") (VDict []))
    = false /\
  execute_tool demo_service_tools (u "create_pptx_presentation")
    (VDict [(u "output_filename", VStr (u "report"))]) (VDict orchestrator_context)
  = Ok (u "create_pptx_presentation", error_payload (u "缺少PPT内容数据")).
Proof.
  assert (H : truthy (dict_get [(u "output_filename", VStr (u "report"))] (u "json_content")
                        (VDict [])) = false) by reflexivity.
  exact (conj H (ppt_tool_requires_content demo_connect demo_run demo_to_json demo_json_loads
                   (fun n => n) (fun _ => 1%nat) (fun _ => true) demo_create_pptx empty_registry
                   _ _ H)).
Defined.

Lemma parse_fenced_as_bare_witness :
  Forall (fun x => is_space x = true) [32; 10] /\ Forall (fun x => is_space x = true) [10] /\
  is_prefix (u "```json") (py_strip ([10] ++ u "[1]" ++ [10])) = false /\
  py_endswith (py_strip ([10] ++ u "[1]" ++ [10])) (u "```") = false /\
  _parse_llm_json_response demo_json_loads (fun _ => true)
    ([32; 10] ++ u "```json" ++ ([10] ++ u "[1]" ++ [10]) ++ u "```" ++ [10])
  = _parse_llm_json_response demo_json_loads (fun _ => true) ([10] ++ u "[1]" ++ [10]).
Proof.
  assert (H1 : Forall (fun x => is_space x = true) [32; 10])
    by (apply (bool_decide_unpack _); vm_compute; reflexivity).
  assert (H2 : Forall (fun x => is_space x = true) [10])
    by (apply (bool_decide_unpack _); vm_compute; reflexivity).
  assert (H3 : is_prefix (u "```json") (py_strip ([10] ++ u "[1]" ++ [10])) = false)
    by (vm_compute; reflexivity).
  assert (H4 : py_endswith (py_strip ([10] ++ u "[1]" ++ [10])) (u "```") = false)
    by (vm_compute; reflexivity).
  exact (conj H1 (conj H2 (conj H3 (conj H4 (parse_fenced_as_bare demo_json_loads (fun _ => true)
           _ _ _ H1 H2 H3 H4))))).
Defined.

Lemma execute_tool_call_keeps_result_witness :
  let tc := ToolCall (u "call_1") (u "execute_sql") (q "{`sql_query`: `SELECT x FROM t`}") in
  demo_json_loads (tc_arguments tc) = Ok sql_rows /\
  (1 <= max_store_items app_processor)%nat /\
  ((tc_name tc, generated_name (tc_name tc) demo_millis demo_uuid) ∉ _order app_processor) /\
  exists result_str,
    execute_tool demo_service_tools (tc_name tc) sql_rows (VDict orchestrator_context)
      = Ok (tc_name tc, result_str) /\
    (exists out, (_execute_tool_call demo_json_loads (Some demo_service_tools)
                    (VDict orchestrator_context) demo_millis demo_uuid app_processor tc).2
                 = Ok (tc_name tc, out)) /\
    get_binding (_execute_tool_call demo_json_loads (Some demo_service_tools)
                   (VDict orchestrator_context) demo_millis demo_uuid app_processor tc).1
      (tc_name tc) (generated_name (tc_name tc) demo_millis demo_uuid)
    = match demo_json_loads result_str with Ok v => v | Raise _ => VStr result_str end.
Proof.
  intros tc.
  assert (H1 : demo_json_loads (tc_arguments tc) = Ok sql_rows) by reflexivity.
  assert (H2 : (1 <= max_store_items app_processor)%nat)
    by (apply Nat.leb_le; vm_compute; reflexivity).
  assert (H3 : (tc_name tc, generated_name (tc_name tc) demo_millis demo_uuid) ∉ _order app_processor)
    by (apply not_elem_of_nil).
  destruct (execute_tool_call_keeps_result demo_json_loads demo_service_tools
              (VDict orchestrator_context) demo_millis demo_uuid app_processor tc sql_rows H1)
    as [res [E [O G]]].
  exact (conj H1 (conj H2 (conj H3 (ex_intro _ res (conj E (conj O (G H2 H3))))))).
Defined.

Lemma html_table_first_100_rows_witness :
  length (repeat (row_of 1) 101) = length (repeat (row_of 1) 100 ++ [row_of 2]) /\
  firstn 100 (repeat (row_of 1) 101) = firstn 100 (repeat (row_of 1) 100 ++ [row_of 2]) /\
  _create_html_table demo_millis (VList (repeat (row_of 1) 101))
  = _create_html_table demo_millis (VList (repeat (row_of 1) 100 ++ [row_of 2])).
Proof.
  assert (H1 : length (repeat (row_of 1) 101) = length (repeat (row_of 1) 100 ++ [row_of 2]))
    by reflexivity.
  assert (H2 : firstn 100 (repeat (row_of 1) 101) = firstn 100 (repeat (row_of 1) 100 ++ [row_of 2]))
    by (vm_compute; reflexivity).
  exact (conj H1 (conj H2 (html_table_first_100_rows demo_millis _ _ H1 H2))).
Defined.

Lemma value_ind_nested (P : value -> Prop) :
  P VNone -> (forall b, P (VBool b)) -> (forall z, P (VInt z)) -> (forall s, P (VStr s)) ->
  (forall l, Forall P l -> P (VList l)) ->
  (forall d, Forall (fun kv => P kv.2) d -> P (VDict d)) ->
  (forall t r, P (VOther t r)) -> forall v, P v.
Proof.
  intros HN HB HZ HS HL HD HO. fix IH 1. intros [| b | z | s | l | d | t r];
    [exact HN | apply HB | apply HZ | apply HS | | | apply HO].
  - apply HL. revert l. fix IHl 1. intros [|x l]; constructor; [apply IH | apply IHl].
  - apply HD. revert d. fix IHd 1. intros [|[k x] d]; constructor; [apply IH | apply IHd].
Qed.

Lemma json_value_dumpable (v : value) : json_value v = true -> dumpable v.
Proof.
  induction v as [| b | z | s | l IH | d IH | t r] using value_ind_nested; intros H;
    try (eexists; reflexivity).
  - destruct b; eexists; reflexivity.
  - apply json_dumps_list_ok. change (forallb json_value l = true) in H.
    pose proof (proj1 (forallb_forall _ _) H) as H0; clear H; rename H0 into H.
    rewrite List.Forall_forall in IH |- *. intros x Hx. apply IH; [exact Hx|]. apply H, Hx.
  - apply json_dumps_dict_ok. change (forallb (fun kv => json_value kv.2) d = true) in H.
    pose proof (proj1 (forallb_forall _ _) H) as H0; clear H; rename H0 into H.
    rewrite List.Forall_forall in IH |- *. intros x Hx. apply IH; [exact Hx|]. apply (H x Hx).
  - discriminate H.
Qed.

Lemma forallb_firstn {A} (f : A -> bool) (n : nat) (l : list A) :
  forallb f l = true -> forallb f (firstn n l) = true.
Proof.
  revert n. induction l as [|x l IH]; intros [|n]; cbn; auto.
  intros H. apply andb_true_iff in H as [H1 H2]. rewrite H1. apply IH, H2.
Qed.

Lemma make_preview_json (p : processor) (v : value) :
  json_value v = true -> json_value (_make_preview p v) = true.
Proof.
  destruct v as [| b | z | s | l | d | t r]; cbn [_make_preview]; intros H; auto.
  - change (forallb json_value l = true) in H.
    change (forallb json_value (firstn (preview_max_items p) l) = true).
    apply forallb_firstn, H.
  - change (forallb (fun kv => json_value kv.2) d = true) in H.
    change (json_value (VDict (map (fun kv => (kv.1, match kv.2 with
                           | VList l => VList (firstn (Nat.min (length l) (preview_max_items p)) l)
                           | VStr s => VStr (firstn (preview_max_chars p) s)
                           | x => x
                           end)) (firstn 20 d))) = true).
    change (forallb (fun kv => json_value kv.2) (map (fun kv => (kv.1, match kv.2 with
                           | VList l => VList (firstn (Nat.min (length l) (preview_max_items p)) l)
                           | VStr s => VStr (firstn (preview_max_chars p) s)
                           | x => x
                           end)) (firstn 20 d)) = true).
    apply forallb_forall. intros kv Hkv.
    apply in_map_iff in Hkv as [[k x] [<- Hin]]. cbn [fst snd].
    apply forallb_firstn with (n := 20%nat) in H. apply forallb_forall with (x := (k, x)) in H;
      [|exact Hin]. cbn [snd] in H.
    destruct x as [| b | z | s | l | d' | t r]; auto.
    change (forallb json_value l = true) in H.
    change (forallb json_value (firstn (Nat.min (length l) (preview_max_items p)) l) = true).
    apply forallb_firstn, H.
Qed.

Lemma size_hint_json (v : value) : json_value (_size_hint v) = true.
Proof. destruct v; reflexivity. Qed.

Lemma payload_ok (p : processor) (tool_name var_name : pystr) (v : value) (include_preview : bool) :
  json_value v = true ->
  exists t, build_lightweight_tool_payload p tool_name var_name v include_preview = Ok t.
Proof.
  intros H. apply json_value_dumpable. cbn [json_value forallb snd].
  destruct include_preview; cbn [app json_value forallb snd];
    rewrite ?make_preview_json, ?size_hint_json by exact H; reflexivity.
Qed.

(** When [json.loads] only ever returns JSON values, [_execute_tool_call]
    with a registry and parseable arguments always hands the LLM the
    lightweight payload of the stored result, never the raw result text:
    the [except] fallback is never taken. *)
Theorem execute_tool_call_returns_payload (json_loads : pystr -> exc value) (r : tool_registry)
    (tool_context : value) (millis : Z) (uuid_hex : pystr) (p : processor) (tc : tool_call)
    (function_args : value) :
  json_loads (tc_arguments tc) = Ok function_args ->
  (forall j v, json_loads j = Ok v -> json_value v = true) ->
  exists result_str payload,
    execute_tool r (tc_name tc) function_args tool_context = Ok (tc_name tc, result_str) /\
    (_execute_tool_call json_loads (Some r) tool_context millis uuid_hex p tc).2
      = Ok (tc_name tc, payload) /\
    build_lightweight_tool_payload (_execute_tool_call json_loads (Some r) tool_context millis
                                      uuid_hex p tc).1
      (tc_name tc) (generated_name (tc_name tc) millis uuid_hex)
      (match json_loads result_str with Ok v => v | Raise _ => VStr result_str end) true
    = Ok payload.
Proof.
  intros Ha Hj.
  destruct (execute_tool_ok r (tc_name tc) function_args tool_context) as [res Hres].
  set (parsed := match json_loads res with Ok v => v | Raise _ => VStr res end).
  assert (Hp : json_value parsed = true).
  { unfold parsed. destruct (json_loads res) eqn:E; [exact (Hj _ _ E)|reflexivity]. }
  unfold _execute_tool_call. rewrite Ha, Hres. fold parsed.
  destruct (register_binding p (tc_name tc) parsed None millis uuid_hex) as [p' var_name] eqn:R.
  assert (Hn : var_name = generated_name (tc_name tc) millis uuid_hex).
  { change var_name with (p', var_name).2. rewrite <- R. reflexivity. }
  subst var_name.
  destruct (payload_ok p' (tc_name tc) (generated_name (tc_name tc) millis uuid_hex) parsed true Hp)
    as [t Ht].
  rewrite Ht. exists res, t. cbn [fst snd]. auto.
Qed.

Lemma execute_tool_call_returns_payload_witness :
  let tc := ToolCall (u "call_1") (u "execute_sql") (q "{`sql_query`: `SELECT x FROM t`}") in
  demo_json_loads (tc_arguments tc) = Ok sql_rows /\
  (forall j v, demo_json_loads j = Ok v -> json_value v = true) /\
  exists result_str payload,
    execute_tool demo_service_tools (tc_name tc) sql_rows (VDict orchestrator_context)
      = Ok (tc_name tc, result_str) /\
    (_execute_tool_call demo_json_loads (Some demo_service_tools) (VDict orchestrator_context)
       demo_millis demo_uuid app_processor tc).2 = Ok (tc_name tc, payload) /\
    build_lightweight_tool_payload (_execute_tool_call demo_json_loads (Some demo_service_tools)
                                      (VDict orchestrator_context) demo_millis demo_uuid
                                      app_processor tc).1
      (tc_name tc) (generated_name (tc_name tc) demo_millis demo_uuid)
      (match demo_json_loads result_str with Ok v => v | Raise _ => VStr result_str end) true
    = Ok payload.
Proof.
  intros tc.
  assert (H1 : demo_json_loads (tc_arguments tc) = Ok sql_rows) by reflexivity.
  assert (H2 : forall j v, demo_json_loads j = Ok v -> json_value v = true).
  { intros j v H. injection H as <-. vm_compute. reflexivity. }
  exact (conj H1 (conj H2 (execute_tool_call_returns_payload demo_json_loads demo_service_tools
           (VDict orchestrator_context) demo_millis demo_uuid app_processor tc sql_rows H1 H2))).
Defined.

(** Claim C5 (amended): registering under ["sql"] without a name returns
    [sql_<millis>_<first 8 characters of the uuid hex>], for every clock
    reading and uuid; resolving the placeholder of [[{"x": 1}]] registered
    that way on any processor with no known tools (capacity at least one,
    new key) yields the JSON text [[{"x": 1}]]; on the application's
    processor, whose known tools do not include ["sql"], the placeholder of
    any value registered under ["sql"] is left unchanged; for every tool
    name other than ["execute_sql"] a token is replaced only by itself or
    by the [json.dumps] of its value, never by table markup; and under
    ["execute_sql"] the same rows give table markup containing ["x"] and
    ["1"], with or without the application's known tools. *)
Theorem execute_sql_placeholder_gives_table :
  (forall (p : processor) (v : value) (millis : Z) (uuid_hex : pystr),
     (register_binding p (u "sql") v None millis uuid_hex).2
     = u "sql_" ++ py_str_int millis ++ u "_" ++ firstn 8 uuid_hex) /\
  (forall (p : processor) (millis now : Z) (uuid_hex : pystr),
     _known_tools p = ∅ -> (1 <= max_store_items p)%nat ->
     (u "sql", generated_name (u "sql") millis uuid_hex) ∉ _order p ->
     (0 <= millis)%Z -> Forall (fun c => is_var_char c = true) (firstn 8 uuid_hex) ->
     resolve_placeholders_in_text (register_binding p (u "sql") sql_rows None millis uuid_hex).1 now
       (Some (placeholder (u "sql") (register_binding p (u "sql") sql_rows None millis uuid_hex).2))
     = Ok (q "[{`x`: 1}]")) /\
  (forall (v : value) (millis now : Z) (uuid_hex : pystr),
     (0 <= millis)%Z -> Forall (fun c => is_var_char c = true) (firstn 8 uuid_hex) ->
     resolve_placeholders_in_text (register_binding app_processor (u "sql") v None millis uuid_hex).1
       now (Some (placeholder (u "sql")
                    (register_binding app_processor (u "sql") v None millis uuid_hex).2))
     = Ok (placeholder (u "sql") (register_binding app_processor (u "sql") v None millis uuid_hex).2)) /\
  (forall (p : processor) (now : Z) (tool var lexeme : pystr),
     tool <> u "execute_sql" ->
     replacer p now tool var lexeme = Ok lexeme \/
     replacer p now tool var lexeme = json_dumps (get_binding p tool var)) /\
  Forall (fun p => exists out,
            snd (register_then_resolve p (u "execute_sql") sql_rows) = Ok out /\
            is_prefix (q "<div class=`table-container`>") out = true /\
            str_contains (q "<table class=`data-table`") out = true /\
            str_contains (q "<th>x</th>") out = true /\
            str_contains (q "<td data-value=`1`>1</td>") out = true)
    [default_processor; app_processor].
Proof.
  assert (Hsql : Forall (fun c => is_tool_char c = true) (u "sql"))
    by (apply (bool_decide_unpack _); vm_compute; reflexivity).
  split; [|split; [|split; [|split]]].
  - intros p v millis uuid_hex. reflexivity.
  - intros p millis now uuid_hex Hk Hcap Hfresh Hm Hu.
    apply register_resolve_json; try assumption.
    + discriminate.
    + left. exact Hk.
    + apply (bool_decide_unpack _). vm_compute. reflexivity.
    + discriminate.
    + vm_compute. reflexivity.
  - intros v millis now uuid_hex Hm Hu.
    pose proof (register_binding_known app_processor (u "sql") v None millis uuid_hex) as K.
    assert (Hn : (register_binding app_processor (u "sql") v None millis uuid_hex).2
                 = generated_name (u "sql") millis uuid_hex) by reflexivity.
    destruct (register_binding app_processor (u "sql") v None millis uuid_hex) as [p' name].
    cbn [fst snd] in K, Hn |- *. subst name.
    rewrite resolve_placeholder; [| discriminate | discriminate | exact Hsql |].
    2:{ apply generated_name_var_chars; assumption. }
    unfold replacer. rewrite K.
    replace (bool_decide (_known_tools app_processor ≠ ∅)
             && negb (bool_decide (u "sql" ∈ _known_tools app_processor))) with true
      by (vm_compute; reflexivity).
    cbn [exc_bind]. rewrite app_nil_r. reflexivity.
  - intros p now tool var lexeme Hx. unfold replacer.
    destruct (bool_decide (_known_tools p ≠ ∅) && negb (bool_decide (tool ∈ _known_tools p)));
      [left; reflexivity|].
    rewrite bool_decide_false by exact Hx.
    destruct (get_binding p tool var); [left; reflexivity| ..];
      (destruct (json_dumps _) eqn:E; [right; reflexivity|left; reflexivity]).
  - repeat (constructor; [eexists; split; [vm_compute; reflexivity|]; vm_compute; auto|]).
    constructor.
Qed.
